(** * physics-agent: the analytical-solve / simulate / verify triad

    A shallow embedding of [core/physics_solver.py], [core/simulation_engine.py]
    and [core/verification.py], with the data classes of [utils/data_models.py].

    Modelling conventions.
    - Python floats are idealised as real numbers ([R]); rounding, infinities
      and NaN are outside the model.  Comparisons are the decidable order of
      [R], so the definitions below are the code's expressions read over the
      reals.  The one exception is [Binary64], which evaluates the two
      collision formulas in IEEE binary64, the arithmetic of Python's floats,
      to show where rounding separates the program from the real-number
      reading.
    - Python objects that the code inspects dynamically (dictionary values,
      [Solution.answer], [PhysicsObject.velocity]) are elements of [value].
    - A Python function that may raise returns [result A]; a [try/except]
      is a [match] on that result.
    - A dictionary is a [gmap string value]; [d.get(k, v)] is [dict_get].
    - The PyBullet client is an abstract [Engine]: a world type with the calls
      the code makes on it.  *)

From Stdlib Require Import Reals Lra Psatz ZArith.
From Stdlib Require PrimFloat.
From stdpp Require Import base option list strings gmap.
Import (notations) PrimFloat.

#[local] Open Scope R_scope.
#[local] Open Scope string_scope.

(** ** Python values, exceptions and the result monad *)

#[warnings="-register-all"]
Inductive value : Type :=
| VNone
| VNum (x : R)
| VStr (s : string)
| VList (l : list value).

Inductive exn : Type :=
| ValueError (msg : string)
| KeyError (key : string)
| TypeError
| IndexError
| ZeroDivisionError.

Inductive result (A : Type) : Type :=
| Ok (a : A)
| Raise (e : exn).
Arguments Ok {A} a.
Arguments Raise {A} e.

#[global] Instance result_ret : MRet result := fun _ a => Ok a.
#[global] Instance result_bind : MBind result := fun _ _ k m =>
  match m with
  | Ok a => k a
  | Raise e => Raise e
  end.
#[global] Instance result_fmap : FMap result := fun _ _ f m =>
  match m with
  | Ok a => Ok (f a)
  | Raise e => Raise e
  end.

(** [str(e)]: the message carried by an exception.  The text of a
    [TypeError] depends on the operands in Python; one representative text
    stands for all of them. *)
Definition str_exn (e : exn) : string :=
  match e with
  | ValueError msg => msg
  | KeyError key => "'" ++ key ++ "'"
  | TypeError => "unsupported operand type(s)"
  | IndexError => "list index out of range"
  | ZeroDivisionError => "float division by zero"
  end.

#[global] Instance Req_decision : EqDecision R := Req_dec_T.
#[global] Instance Rlt_decision (x y : R) : Decision (x < y) := Rlt_dec x y.
#[global] Instance Rle_decision (x y : R) : Decision (x <= y) := Rle_dec x y.
#[global] Instance Rgt_decision (x y : R) : Decision (x > y) := Rgt_dec x y.

(** A number is expected: arithmetic and ordering on anything else raise. *)
Definition to_num (v : value) : result R :=
  match v with
  | VNum x => Ok x
  | _ => Raise TypeError
  end.

(** [v == 0]: comparing a non-number with [0] is [False], not an error. *)
Definition py_eq0 (v : value) : bool :=
  match v with
  | VNum x => bool_decide (x = 0)
  | _ => false
  end.

(** [isinstance(v, list)] *)
Definition is_list (v : value) : bool :=
  match v with
  | VList _ => true
  | _ => false
  end.

(** [v[i]]; the code indexes only what it knows, or has checked, to be a
    list. *)
Definition py_index (v : value) (i : nat) : result value :=
  match v with
  | VList l => match l !! i with
               | Some x => Ok x
               | None => Raise IndexError
               end
  | _ => Raise TypeError
  end.

(** [max(a, b)] of Python keeps its first argument unless the second is
    strictly larger. *)
Definition py_max (a b : R) : R := if decide (a < b) then b else a.

(** [math.sqrt] raises [ValueError] below zero. *)
Definition math_sqrt (x : R) : result R :=
  if decide (x < 0) then Raise (ValueError "math domain error") else Ok (sqrt x).

(** [math.radians] *)
Definition math_radians (deg : R) : R := deg * (PI / 180).

(** [int(x)] used as a loop bound: [range] of a non-positive count is empty. *)
Definition py_int_range (x : R) : nat := Z.to_nat (Int_part x).

(** ** Dictionaries *)

Definition dict_get (d : gmap string value) (k : string) (dflt : value) : value :=
  default dflt (d !! k).

(** [d[k]] *)
Definition dict_item (d : gmap string value) (k : string) : result value :=
  match d !! k with
  | Some v => Ok v
  | None => Raise (KeyError k)
  end.

(** A dictionary display [{k1: v1, ...}]. *)
Definition dict_of (l : list (string * value)) : gmap string value :=
  list_to_map l.

(** ** utils/data_models.py *)

Inductive ProblemType : Type :=
| GENERAL | KINEMATICS | PROJECTILE | FREE_FALL | PENDULUM
| COLLISION | SPRING | CIRCULAR | OTHER.

(** The core reads [mass] and [velocity] only; [velocity] is a list of
    components by default and a bare number when the parser passes one
    through. *)
Record PhysicsObject : Type := {
  name : string;
  mass : R;
  position : value;
  velocity : value;
}.

Record PhysicsProblem : Type := {
  problem_text : string;
  problem_type : ProblemType;
  objects : list PhysicsObject;
  initial_conditions : gmap string value;
  constraints : list string;
  question : string;
}.

Module Solution.
Record t : Type := {
  answer : value;
  unit : value;
  method : string;
  steps : value;
  confidence : R;
  visualization_data : option (gmap string value);
}.
End Solution.

(** What [simulation_result] shows: the f-strings of [verify_solution] kept
    as their arguments. *)
Inductive display : Type :=
| DisplayText (s : string)
| DisplayError (msg : string)
| DisplayScalar (x : R) (unit : string)
| DisplayCollision (va vb : R).

Module VerificationResult.
Record t : Type := {
  is_valid : bool;
  confidence : R;
  error : option string;
  analytical_result : value;
  simulation_result : option display;
  agreement_score : R;
}.
End VerificationResult.

(** ** core/verification.py: the agreement score *)

Definition _calculate_agreement_score (analytical simulated : value) : result R :=
  if py_eq0 analytical && py_eq0 simulated then Ok 1
  else if py_eq0 analytical || py_eq0 simulated then Ok 0
  else
    a ← to_num analytical;
    s ← to_num simulated;
    let relative_diff := Rabs (a - s) / py_max (Rabs a) (Rabs s) in
    Ok (py_max 0 (1 - relative_diff)).

(** ** core/physics_solver.py *)

(** [Config.GRAVITY]; the free-fall solver and the simulator spell the same
    constant out as [g = 9.81]. *)
Definition GRAVITY : R := 9.81.

(** [v == 'text'] *)
Definition py_eq_str (v : value) (s : string) : bool :=
  match v with
  | VStr s' => bool_decide (s' = s)
  | _ => false
  end.

(** Truth value of a dictionary: non-empty. *)
Definition dict_truthy (d : gmap string value) : bool :=
  bool_decide (size d ≠ 0%nat).

(** [except Exception as e: return {'error': str(e)}] *)
Definition error_dict (e : exn) : gmap string value :=
  dict_of [("error", VStr (str_exn e))].

Definition catch_error_dict (body : result (gmap string value)) : gmap string value :=
  match body with
  | Ok d => d
  | Raise e => error_dict e
  end.

Definition _solve_projectile_motion (initial_velocity angle height : value)
  : gmap string value :=
  catch_error_dict (
    ang ← to_num angle;
    let angle_rad := math_radians ang in
    v0 ← to_num initial_velocity;
    let v0x := v0 * cos angle_rad in
    let v0y := v0 * sin angle_rad in
    let a := 0.5 * GRAVITY in
    let b := - v0y in
    h ← to_num height;
    let c := - h in
    let discriminant := b ^ 2 - 4 * a * c in
    if decide (discriminant < 0)
    then Raise (ValueError "No real solution for time of flight")
    else
      root ← math_sqrt discriminant;
      let time_flight := (- b + root) / (2 * a) in
      let time_flight :=
        if decide (time_flight < 0) then (- b - root) / (2 * a) else time_flight in
      let range_x := v0x * time_flight in
      let time_to_max := v0y / GRAVITY in
      let max_height := h + v0y * time_to_max - 0.5 * GRAVITY * time_to_max ^ 2 in
      let final_velocity_x := v0x in
      let final_velocity_y := v0y - GRAVITY * time_flight in
      final_velocity ← math_sqrt (final_velocity_x ^ 2 + final_velocity_y ^ 2);
      Ok (dict_of [
        ("range", VNum range_x);
        ("time_flight", VNum time_flight);
        ("max_height", VNum max_height);
        ("final_velocity", VNum final_velocity);
        ("final_velocity_x", VNum final_velocity_x);
        ("final_velocity_y", VNum final_velocity_y);
        ("initial_velocity", initial_velocity);
        ("angle", angle);
        ("height", height)])).

Definition _solve_free_fall (problem : PhysicsProblem) : gmap string value :=
  let height := dict_get (initial_conditions problem) "height" (VNum 0) in
  let initial_velocity := dict_get (initial_conditions problem) "initial_velocity" (VNum 0) in
  let time := dict_get (initial_conditions problem) "time" (VNum 0) in
  let quantity_asked :=
    dict_get (initial_conditions problem) "quantity_asked" (VStr "final_velocity") in
  let g := 9.81 in
  catch_error_dict (
    t ← to_num time;
    if decide (t > 0) then
      let distance := 0.5 * g * t * t in
      let final_velocity := g * t in
      Ok (dict_of [
        ("distance", VNum distance);
        ("final_velocity", VNum final_velocity);
        ("time_fall", time);
        ("initial_velocity", initial_velocity);
        ("answer", if py_eq_str quantity_asked "distance"
                   then VNum distance else VNum final_velocity);
        ("unit", if py_eq_str quantity_asked "distance"
                 then VStr "m" else VStr "m/s")])
    else
      h ← to_num height;
      final_velocity ← math_sqrt (2 * g * h);
      time_fall ← math_sqrt (2 * h / g);
      Ok (dict_of [
        ("distance", height);
        ("final_velocity", VNum final_velocity);
        ("time_fall", VNum time_fall);
        ("initial_velocity", initial_velocity);
        ("answer", if py_eq_str quantity_asked "final_velocity"
                   then VNum final_velocity else height);
        ("unit", if py_eq_str quantity_asked "final_velocity"
                 then VStr "m/s" else VStr "m")])).

Definition _solve_pendulum (length initial_angle : value) : result (gmap string value) :=
  len ← to_num length;
  if decide (len <= 0)
  then Raise (ValueError "Pendulum length must be a positive value.")
  else
    root ← math_sqrt (len / GRAVITY);
    let period := 2 * PI * root in
    ang ← to_num initial_angle;
    let height := len * (1 - cos (math_radians ang)) in
    max_velocity ← math_sqrt (2 * GRAVITY * height);
    let frequency := if decide (period > 0) then 1 / period else 0 in
    Ok (dict_of [
      ("period", VNum period);
      ("max_velocity", VNum max_velocity);
      ("frequency", VNum frequency);
      ("length", length);
      ("initial_angle", initial_angle)]).

(** [if isinstance(v, list): v = v[0]] *)
Definition first_if_list (v : value) : result value :=
  if is_list v then py_index v 0 else Ok v.

(** The body of the [try] of [_solve_collision]. *)
Definition _solve_collision_body (mass_a mass_b : R) (velocity_a velocity_b : value)
  : result (gmap string value) :=
  velocity_a ← first_if_list velocity_a;
  velocity_b ← first_if_list velocity_b;
  if bool_decide (mass_a <= 0) || bool_decide (mass_b <= 0)
  then Raise (ValueError "Mass must be greater than zero")
  else
    let total_mass := mass_a + mass_b in
    if decide (total_mass <= 0)
    then Raise (ValueError "Total mass must be greater than zero")
    else
      va ← to_num velocity_a;
      vb ← to_num velocity_b;
      let velocity_a_final := ((mass_a - mass_b) * va + 2 * mass_b * vb) / total_mass in
      let velocity_b_final := ((mass_b - mass_a) * vb + 2 * mass_a * va) / total_mass in
      let steps := VList [
        VList [VStr "1. Ball A mass: {} kg, initial velocity: {} m/s"; VNum mass_a; VNum va];
        VList [VStr "2. Ball B mass: {} kg, initial velocity: {} m/s"; VNum mass_b; VNum vb];
        VList [VStr "3. Final velocity of Ball A: {:.2f} m/s"; VNum velocity_a_final];
        VList [VStr "4. Final velocity of Ball B: {:.2f} m/s"; VNum velocity_b_final]] in
      Ok (dict_of [
        ("velocity_a_final", VNum velocity_a_final);
        ("velocity_b_final", VNum velocity_b_final);
        ("mass_a", VNum mass_a);
        ("mass_b", VNum mass_b);
        ("velocity_a", VNum va);
        ("velocity_b", VNum vb);
        ("answer", VList [VNum velocity_a_final; VNum velocity_b_final]);
        ("unit", VStr "m/s");
        ("steps", steps)]).

Definition _solve_collision (mass_a mass_b : R) (velocity_a velocity_b : value)
  : result (gmap string value) :=
  match _solve_collision_body mass_a mass_b velocity_a velocity_b with
  | Ok d => Ok d
  | Raise e => Raise (ValueError ("Error in collision calculation: " ++ str_exn e))
  end.

(** [result['answer'] = result[key]; result['unit'] = unit] *)
Definition set_answer (d : gmap string value) (key unit : string)
  : result (gmap string value) :=
  v ← dict_item d key;
  Ok (<["unit" := VStr unit]> (<["answer" := v]> d)).

Definition solve_problem (problem : PhysicsProblem) : result Solution.t :=
  let ic := initial_conditions problem in
  result ←
    match problem_type problem with
    | PROJECTILE =>
        let result := _solve_projectile_motion
                        (dict_get ic "initial_velocity" (VNum 0))
                        (dict_get ic "angle" (VNum 0))
                        (dict_get ic "height" (VNum 0)) in
        if dict_truthy result then
          let quantity_asked := dict_get ic "quantity_asked" (VStr "range") in
          if py_eq_str quantity_asked "range" then Some <$> set_answer result "range" "m"
          else if py_eq_str quantity_asked "max_height"
               then Some <$> set_answer result "max_height" "m"
          else if py_eq_str quantity_asked "time_flight"
               then Some <$> set_answer result "time_flight" "s"
          else Some <$> set_answer result "range" "m"
        else Ok (Some result)
    | FREE_FALL =>
        let result := _solve_free_fall problem in
        if dict_truthy result then
          let quantity_asked := dict_get ic "quantity_asked" (VStr "final_velocity") in
          if py_eq_str quantity_asked "final_velocity"
          then Some <$> set_answer result "final_velocity" "m/s"
          else if py_eq_str quantity_asked "distance"
               then Some <$> set_answer result "distance" "m"
          else if py_eq_str quantity_asked "time_fall"
               then Some <$> set_answer result "time_fall" "s"
          else Some <$> set_answer result "final_velocity" "m/s"
        else Ok (Some result)
    | PENDULUM =>
        result ← _solve_pendulum (dict_get ic "length" (VNum 0))
                                 (dict_get ic "initial_angle" (VNum 30));
        if dict_truthy result then
          let quantity_asked := dict_get ic "quantity_asked" (VStr "period") in
          if py_eq_str quantity_asked "max_velocity"
          then Some <$> set_answer result "max_velocity" "m/s"
          else Some <$> set_answer result "period" "s"
        else Ok (Some result)
    | COLLISION =>
        match objects problem with
        | a :: b :: _ =>
            Some <$> _solve_collision (mass a) (mass b) (velocity a) (velocity b)
        | _ => Ok None
        end
    | _ => Ok None
    end;
  match result with
  | Some result =>
      if dict_truthy result then
        answer ← dict_item result "answer";
        unit ← dict_item result "unit";
        Ok {| Solution.answer := answer;
              Solution.unit := unit;
              Solution.steps := dict_get result "steps" (VList []);
              Solution.method := "analytical";
              Solution.confidence := 1;
              Solution.visualization_data := Some result |}
      else Raise (ValueError "Could not solve problem")
  | None => Raise (ValueError "Could not solve problem")
  end.

(** ** core/simulation_engine.py *)

Definition vec3 : Type := R * R * R.
Definition vx (p : vec3) : R := p.1.1.
Definition vy (p : vec3) : R := p.1.2.
Definition vz (p : vec3) : R := p.2.

(** The PyBullet client as the simulator uses it.  Every call may raise,
    which is [None] here; the simulator turns any exception into its own
    [None].
    - [connect dt]: [p.connect(p.DIRECT)], [setGravity(0, 0, -9.81)] and
      [setPhysicsEngineParameter(fixedTimeStep=dt, ...)].
    - [spawn_sphere w pos vel]: the ground plane, a sphere of mass 1 and
      radius 0.1 at [pos] with all damping, friction and restitution set to
      zero, and [resetBaseVelocity] to [vel].
    - [spawn_pendulum w length pos]: the pivot at the origin, the bob at
      [(0, 0, -length)], the point-to-point constraint, and
      [resetBasePositionAndOrientation] of the bob to [pos].
    - [stepSimulation], [getBasePosition]: one fixed step, and the position
      of the one dynamic body. *)
Record Engine : Type := {
  world : Type;
  connect : R -> option world;
  spawn_sphere : world -> vec3 -> vec3 -> option world;
  spawn_pendulum : world -> R -> vec3 -> option world;
  stepSimulation : world -> option world;
  getBasePosition : world -> vec3;
}.

(** The attributes that [SimulationEngine.__init__] sets and the methods
    read: [self.time_step] and [self.max_steps]. *)
Record SimulationEngine : Type := {
  time_step : R;
  max_steps : nat;
}.

(** [SimulationEngine()]: 240 Hz and 10000 steps. *)
Definition SimulationEngine_init : SimulationEngine :=
  {| time_step := 1 / 240; max_steps := 100 * 100 |}.

(** The radius of every sphere the simulator creates. *)
Definition radius : R := 0.1.

(** [try: ... except Exception: return None] around a body that may also
    return [None] itself. *)
Definition catch_none {A : Type} (body : result (option A)) : option A :=
  match body with
  | Ok r => r
  | Raise _ => None
  end.

(** An engine call inside a [try] body. *)
Definition engine_call {A : Type} (r : option A) : result A :=
  match r with
  | Some a => Ok a
  | None => Raise (ValueError "pybullet.error")
  end.

Section Simulation.
Context (E : Engine) (self : SimulationEngine).

(** State of the loop of [simulate_projectile]. *)
Record projectile_state : Type := {
  ps_max_height : R;
  ps_range_x : R;
  ps_time_flight : R;
  ps_positions : list vec3;
}.

(** [for _ in range(n): ...; if pos[2] <= radius: break] *)
Fixpoint projectile_loop (n : nat) (w : world E) (st : projectile_state)
  : result projectile_state :=
  match n with
  | O => Ok st
  | S n' =>
      w' ← engine_call (stepSimulation E w);
      let pos := getBasePosition E w' in
      let st' := {| ps_max_height := py_max (ps_max_height st) (vz pos);
                    ps_range_x := py_max (ps_range_x st) (vx pos);
                    ps_time_flight := ps_time_flight st + time_step self;
                    ps_positions := ps_positions st ++ [pos] |} in
      if decide (vz pos <= radius) then Ok st' else projectile_loop n' w' st'
  end.

Definition simulate_projectile (initial_velocity angle height : value)
  : option (gmap string value) :=
  catch_none (
    match connect E (time_step self) with
    | None => Ok None
    | Some w =>
        h ← to_num height;
        ang ← to_num angle;
        let angle_rad := math_radians ang in
        v0 ← to_num initial_velocity;
        let vel := (v0 * cos angle_rad, 0, v0 * sin angle_rad) in
        w ← engine_call (spawn_sphere E w (0, 0, h + radius) vel);
        st ← projectile_loop (max_steps self) w
               {| ps_max_height := h; ps_range_x := 0;
                  ps_time_flight := 0; ps_positions := [] |};
        match ps_positions st with
        | [] => Ok None
        | _ =>
            Ok (Some (dict_of [
              ("range", VNum (ps_range_x st));
              ("max_height", VNum (ps_max_height st - radius));
              ("time_flight", VNum (ps_time_flight st))]))
        end
    end).

(** The loop of [simulate_free_fall]: nothing it measures is reported. *)
Fixpoint free_fall_loop (n : nat) (w : world E) (time : R) : result (world E) :=
  match n with
  | O => Ok w
  | S n' =>
      w' ← engine_call (stepSimulation E w);
      let pos := getBasePosition E w' in
      if bool_decide (time = 0) && bool_decide (vz pos <= radius)
      then Ok w' else free_fall_loop n' w' time
  end.

Definition simulate_free_fall (height initial_velocity time : value)
  : option (gmap string value) :=
  catch_none (
    match connect E (time_step self) with
    | None => Ok None
    | Some w =>
        let g := 9.81 in
        t ← to_num time;
        '(distance, final_velocity, time_fall, theoretical_time) ←
          (if decide (t > 0) then
             let theoretical_distance := 0.5 * g * t * t in
             let theoretical_velocity := g * t in
             Ok (VNum theoretical_distance, theoretical_velocity, time, 0)
           else
             h ← to_num height;
             theoretical_time ← math_sqrt (2 * h / g);
             theoretical_velocity ← math_sqrt (2 * g * h);
             Ok (height, theoretical_velocity, VNum theoretical_time,
                 theoretical_time));
        h ← to_num height;
        v0 ← to_num initial_velocity;
        w ← engine_call (spawn_sphere E w (0, 0, h) (0, 0, - v0));
        let num_steps :=
          if decide (t > 0) then py_int_range (t / time_step self)
          else py_int_range (theoretical_time / time_step self) in
        _ ← free_fall_loop num_steps w t;
        Ok (Some (dict_of [
          ("distance", distance);
          ("final_velocity", VNum final_velocity);
          ("time_fall", time_fall);
          ("height", height);
          ("initial_velocity", initial_velocity);
          ("theoretical_distance", distance);
          ("theoretical_velocity", VNum final_velocity)]))
    end).

(** [math.atan2] and [math.degrees] *)
Definition math_atan2 (y x : R) : R :=
  if decide (0 < x) then atan (y / x)
  else if decide (x < 0)
       then (if decide (0 <= y) then atan (y / x) + PI else atan (y / x) - PI)
  else if decide (0 < y) then PI / 2
  else if decide (y < 0) then - (PI / 2)
  else 0.

Definition math_degrees (rad : R) : R := rad * (180 / PI).

(** The loop of [simulate_pendulum]: [times] and [angles], in step. *)
Fixpoint pendulum_loop (n : nat) (i : nat) (w : world E) (samples : list (R * R))
  : result (list (R * R)) :=
  match n with
  | O => Ok samples
  | S n' =>
      w' ← engine_call (stepSimulation E w);
      let pos := getBasePosition E w' in
      let angle := math_degrees (math_atan2 (vx pos) (- vz pos)) in
      pendulum_loop n' (S i) w' (samples ++ [(INR i * time_step self, angle)])
  end.

(** [times[i]] for each [i >= 1] with [angles[i-1] * angles[i] < 0]. *)
Fixpoint zero_crossings (prev : R) (samples : list (R * R)) : list R :=
  match samples with
  | [] => []
  | (t, a) :: rest =>
      if decide (prev * a < 0) then t :: zero_crossings a rest
      else zero_crossings a rest
  end.

Definition simulate_pendulum (length initial_angle : value)
  : option (gmap string value) :=
  catch_none (
    match connect E (time_step self) with
    | None => Ok None
    | Some w =>
        len ← to_num length;
        ang ← to_num initial_angle;
        let angle_rad := math_radians ang in
        let x := len * sin angle_rad in
        let z := - len * cos angle_rad in
        w ← engine_call (spawn_pendulum E w len (x, 0, z));
        root ← math_sqrt (len / 9.81);
        let period := 2 * PI * root in
        let sim_time := 3 * period in
        let steps := py_int_range (sim_time / time_step self) in
        samples ← pendulum_loop steps 0 w [];
        match samples with
        | [] => Ok None
        | (_, a0) :: rest =>
            let zc := zero_crossings a0 rest in
            let period :=
              match zc with
              | first :: _ :: _ =>
                  2 * (List.last zc 0 - first) / (INR (List.length zc) - 1)
              | _ => period
              end in
            Ok (Some (dict_of [("period", VNum period)]))
        end
    end).

Definition simulate_collision (mass_a mass_b : R) (velocity_a velocity_b : value)
  : option (gmap string value) :=
  catch_none (
    '(v_a_final, v_b_final) ←
      (if decide (mass_a = mass_b) then Ok (velocity_b, velocity_a)
       else
         if decide (mass_a + mass_b = 0) then Raise ZeroDivisionError
         else
           va ← to_num velocity_a;
           vb ← to_num velocity_b;
           Ok (VNum ((mass_a - mass_b) / (mass_a + mass_b) * va
                     + (2 * mass_b) / (mass_a + mass_b) * vb),
               VNum ((2 * mass_a) / (mass_a + mass_b) * va
                     + (mass_b - mass_a) / (mass_a + mass_b) * vb)));
    Ok (Some (dict_of [
      ("velocity_a_final", v_a_final);
      ("velocity_b_final", v_b_final)]))).

(** [str(problem.problem_type)] *)
Definition ProblemType_str (t : ProblemType) : string :=
  "ProblemType." ++
  match t with
  | GENERAL => "GENERAL" | KINEMATICS => "KINEMATICS"
  | PROJECTILE => "PROJECTILE" | FREE_FALL => "FREE_FALL"
  | PENDULUM => "PENDULUM" | COLLISION => "COLLISION"
  | SPRING => "SPRING" | CIRCULAR => "CIRCULAR" | OTHER => "OTHER"
  end.

(** [objects[i]] *)
Definition object_at (l : list PhysicsObject) (i : nat) : result PhysicsObject :=
  match l !! i with
  | Some o => Ok o
  | None => Raise IndexError
  end.

Definition simulate (problem : PhysicsProblem) : option (gmap string value) :=
  let ic := initial_conditions problem in
  let body : result (option (gmap string value)) :=
    match problem_type problem with
    | PROJECTILE =>
        Ok (simulate_projectile (dict_get ic "initial_velocity" (VNum 0))
                                (dict_get ic "angle" (VNum 45))
                                (dict_get ic "height" (VNum 0)))
    | FREE_FALL =>
        Ok (simulate_free_fall (dict_get ic "height" (VNum 0))
                               (dict_get ic "initial_velocity" (VNum 0))
                               (dict_get ic "time" (VNum 0)))
    | PENDULUM =>
        Ok (simulate_pendulum (dict_get ic "length" (VNum 1))
                              (dict_get ic "initial_angle" (VNum 30)))
    | COLLISION =>
        ball_a ← object_at (objects problem) 0;
        ball_b ← object_at (objects problem) 1;
        velocity_a ← first_if_list (velocity ball_a);
        velocity_b ← first_if_list (velocity ball_b);
        Ok (simulate_collision (mass ball_a) (mass ball_b) velocity_a velocity_b)
    | t => Raise (ValueError ("Unsupported problem type: " ++ ProblemType_str t))
    end in
  match body with
  | Ok r => r
  | Raise e => Some (dict_of [("error", VStr ("Simulation failed: " ++ str_exn e))])
  end.

End Simulation.

(** ** core/verification.py: [verify_solution] *)

(** [f"{v:.2f}"]: only a number takes the format code [f]. *)
Definition format_2f (v : value) : result R :=
  match v with
  | VNum x => Ok x
  | VStr _ => Raise (ValueError "Unknown format code 'f' for object of type 'str'")
  | _ => Raise TypeError
  end.

(** [if not sim_result] *)
Definition sim_result_falsy (sim_result : option (gmap string value)) : bool :=
  match sim_result with
  | None => true
  | Some d => negb (dict_truthy d)
  end.

(** [VerificationResult(is_valid=False, confidence=0.0, error=..., simulation_result=...)]
    with the defaults of the data class for the other fields. *)
Definition failed_verification (msg : string) (shown : display) : VerificationResult.t :=
  {| VerificationResult.is_valid := false;
     VerificationResult.confidence := 0;
     VerificationResult.error := Some msg;
     VerificationResult.analytical_result := VNone;
     VerificationResult.simulation_result := Some shown;
     VerificationResult.agreement_score := 0 |}.

(** The agreement of [verify_solution]: component-wise on two lists, scalar
    otherwise. *)
Definition agreement (analytical simulated : value) : result R :=
  if is_list analytical && is_list simulated then
    a0 ← py_index analytical 0;
    s0 ← py_index simulated 0;
    score_a ← _calculate_agreement_score a0 s0;
    a1 ← py_index analytical 1;
    s1 ← py_index simulated 1;
    score_b ← _calculate_agreement_score a1 s1;
    Ok (score_a * 0.5 + score_b * 0.5)
  else _calculate_agreement_score analytical simulated.

Section Verification.
Context (E : Engine) (simulation_engine : SimulationEngine).

(** The body of the [try] of [verify_solution]. *)
Definition verify_solution_body (problem : PhysicsProblem) (solution : Solution.t)
  : result VerificationResult.t :=
  let sim_result := simulate E simulation_engine problem in
  if sim_result_falsy sim_result then
    Ok (failed_verification "Simulation failed to run" (DisplayText "Simulation failed"))
  else
    let sim_result := default ∅ sim_result in
    let ic := initial_conditions problem in
    let compared : option (value * value * string) :=
      match problem_type problem with
      | PROJECTILE =>
          Some (Solution.answer solution, dict_get sim_result "range" (VNum 0), "m")
      | FREE_FALL =>
          if py_eq_str (dict_get ic "quantity_asked" VNone) "final_velocity"
          then Some (Solution.answer solution,
                     dict_get sim_result "final_velocity" (VNum 0), "m/s")
          else Some (Solution.answer solution,
                     dict_get sim_result "distance" (VNum 0), "m")
      | PENDULUM =>
          Some (Solution.answer solution, dict_get sim_result "period" (VNum 0), "s")
      | COLLISION =>
          Some (Solution.answer solution,
                VList [dict_get sim_result "velocity_a_final" (VNum 0);
                       dict_get sim_result "velocity_b_final" (VNum 0)],
                "m/s")
      | _ => None
      end in
    match compared with
    | None =>
        Ok (failed_verification "Problem type not supported for verification"
                                (DisplayText "Unsupported problem type"))
    | Some (analytical, simulated, unit) =>
        agreement_score ← agreement analytical simulated;
        sim_display ←
          match problem_type problem with
          | COLLISION =>
              s0 ← py_index simulated 0;
              x0 ← format_2f s0;
              s1 ← py_index simulated 1;
              x1 ← format_2f s1;
              Ok (DisplayCollision x0 x1)
          | _ =>
              x ← format_2f simulated;
              Ok (DisplayScalar x unit)
          end;
        let confidence := agreement_score in
        let is_valid := bool_decide (agreement_score > 0.8) in
        Ok {| VerificationResult.is_valid := is_valid;
              VerificationResult.confidence := confidence;
              VerificationResult.error := None;
              VerificationResult.analytical_result := Solution.answer solution;
              VerificationResult.simulation_result := Some sim_display;
              VerificationResult.agreement_score := agreement_score |}
    end.

(** [try: ... except Exception as e: return VerificationResult(...)] *)
Definition verify_solution (problem : PhysicsProblem) (solution : Solution.t)
  : result VerificationResult.t :=
  match verify_solution_body problem solution with
  | Ok r => Ok r
  | Raise e => Ok (failed_verification (str_exn e) (DisplayError (str_exn e)))
  end.

End Verification.

(** ** A reference engine

    One free body under gravity, advanced by the semi-implicit Euler step
    (velocity first, then position) with the time step given at connection.
    It has no contact handling and no constraints, so it serves for bodies
    that stay above the ground. *)

Record ballistic_world : Type := {
  bw_dt : R;
  bw_pos : vec3;
  bw_vel : vec3;
}.

Definition ballistic_step (w : ballistic_world) : ballistic_world :=
  let dt := bw_dt w in
  let v := bw_vel w in
  let p := bw_pos w in
  let v' := (vx v, vy v, vz v - 9.81 * dt) in
  {| bw_dt := dt;
     bw_pos := (vx p + vx v' * dt, vy p + vy v' * dt, vz p + vz v' * dt);
     bw_vel := v' |}.

Definition ballistic_engine : Engine := {|
  world := ballistic_world;
  connect := fun dt => Some {| bw_dt := dt; bw_pos := (0, 0, 0); bw_vel := (0, 0, 0) |};
  spawn_sphere := fun w pos vel => Some {| bw_dt := bw_dt w; bw_pos := pos; bw_vel := vel |};
  spawn_pendulum := fun _ _ _ => None;
  stepSimulation := fun w => Some (ballistic_step w);
  getBasePosition := bw_pos;
|}.

(** ** Observing a run of the engine *)

(** The world after [k] steps. *)
Fixpoint run_steps (E : Engine) (k : nat) (w : world E) : option (world E) :=
  match k with
  | O => Some w
  | S k' => w' ← stepSimulation E w; run_steps E k' w'
  end.

(** After [k] steps the body is still above the ground plane [z = radius],
    or it has reached it. *)
Definition in_flight (E : Engine) (w : world E) (k : nat) : Prop :=
  exists w', run_steps E k w = Some w' /\ radius < vz (getBasePosition E w').

Definition landed (E : Engine) (w : world E) (k : nat) : Prop :=
  exists w', run_steps E k w = Some w' /\ vz (getBasePosition E w') <= radius.

(** ** Sample inputs *)

Definition ball (n : string) (m v : R) : PhysicsObject :=
  {| name := n; mass := m;
     position := VList [VNum 0; VNum 0; VNum 0];
     velocity := VList [VNum v; VNum 0; VNum 0] |}.

Definition collision_problem (objs : list PhysicsObject) : PhysicsProblem :=
  {| problem_text := "Ball A hits Ball B. What are the final velocities?";
     problem_type := COLLISION;
     objects := objs;
     initial_conditions := dict_of [("quantity_asked", VStr "final_velocities")];
     constraints := [];
     question := "What is the final_velocities?" |}.

Definition collision_solution (va vb : R) : Solution.t :=
  {| Solution.answer := VList [VNum va; VNum vb];
     Solution.unit := VStr "m/s";
     Solution.method := "analytical";
     Solution.steps := VList [];
     Solution.confidence := 1;
     Solution.visualization_data := None |}.

Definition free_fall_problem (params : list (string * value)) : PhysicsProblem :=
  {| problem_text := "A stone falls. What is its final velocity?";
     problem_type := FREE_FALL;
     objects := [];
     initial_conditions := dict_of params;
     constraints := [];
     question := "What is the final_velocity?" |}.

(** ** More sample inputs *)

Definition pendulum_problem (params : list (string * value)) : PhysicsProblem :=
  {| problem_text := "A pendulum swings. What is its period?";
     problem_type := PENDULUM;
     objects := [];
     initial_conditions := dict_of params;
     constraints := [];
     question := "What is the period?" |}.

Definition projectile_problem (params : list (string * value)) : PhysicsProblem :=
  {| problem_text := "A ball is thrown. How far does it travel?";
     problem_type := PROJECTILE;
     objects := [];
     initial_conditions := dict_of params;
     constraints := [];
     question := "What is the range?" |}.

Definition spring_problem : PhysicsProblem :=
  {| problem_text := "A mass oscillates on a spring.";
     problem_type := SPRING;
     objects := [];
     initial_conditions := dict_of [];
     constraints := [];
     question := "What is the period?" |}.

(** ** An engine that is not available

    Every call fails, as when PyBullet cannot be connected to. *)
Definition offline_engine : Engine := {|
  world := unit;
  connect := fun _ => None;
  spawn_sphere := fun _ _ _ => None;
  spawn_pendulum := fun _ _ _ => None;
  stepSimulation := fun _ => None;
  getBasePosition := fun _ => (0, 0, 0);
|}.

(** ** core/verification.py: the helpers of the per-type verifiers *)

#[global] Instance Rge_decision (x y : R) : Decision (x >= y) := Rge_dec x y.

(** [min(a, b)] on two floats: [b] when [b < a], else [a]. *)
Definition py_min (a b : R) : R := if decide (b < a) then b else a.

(** [Config.HIGH_CONFIDENCE_THRESHOLD], [Config.MEDIUM_CONFIDENCE_THRESHOLD] *)
Definition HIGH_CONFIDENCE_THRESHOLD : R := 0.9.
Definition MEDIUM_CONFIDENCE_THRESHOLD : R := 0.7.

(** [_calculate_agreement], on two floats as its signature says. *)
Definition _calculate_agreement (analytical simulation : R) : R :=
  if bool_decide (analytical = 0) && bool_decide (simulation = 0) then 1
  else if bool_decide (analytical = 0) || bool_decide (simulation = 0) then 0
  else
    let relative_error :=
      Rabs (analytical - simulation) / py_max (Rabs analytical) (Rabs simulation) in
    let agreement := py_max 0 (1 - relative_error) in
    agreement.

Definition _calculate_confidence (agreement_score : R) : R :=
  if decide (agreement_score >= HIGH_CONFIDENCE_THRESHOLD)
  then py_min 0.99 (agreement_score + 0.05)
  else if decide (agreement_score >= MEDIUM_CONFIDENCE_THRESHOLD)
       then agreement_score
       else py_max 0.1 (agreement_score - 0.1).

(** ** utils/physics_math.py *)

Module PhysicsMath.

(** [projectile_motion]: raises where the solver returns an error
    dictionary, and always takes the root with the positive square root. *)
Definition projectile_motion (v0 angle height : R) : result (gmap string value) :=
  let angle_rad := math_radians angle in
  let v0x := v0 * cos angle_rad in
  let v0y := v0 * sin angle_rad in
  let a := 0.5 * GRAVITY in
  let b := - v0y in
  let c := - height in
  let discriminant := b ^ 2 - 4 * a * c in
  if decide (discriminant < 0)
  then Raise (ValueError "Projectile will not reach the ground")
  else
    root ← math_sqrt discriminant;
    let time_flight := (- b + root) / (2 * a) in
    let range_x := v0x * time_flight in
    let time_to_max_height := v0y / GRAVITY in
    let max_height :=
      height + v0y * time_to_max_height - 0.5 * GRAVITY * time_to_max_height ^ 2 in
    let final_velocity_x := v0x in
    let final_velocity_y := v0y - GRAVITY * time_flight in
    final_velocity ← math_sqrt (final_velocity_x ^ 2 + final_velocity_y ^ 2);
    Ok (dict_of [
      ("range", VNum range_x);
      ("time_flight", VNum time_flight);
      ("max_height", VNum max_height);
      ("final_velocity", VNum final_velocity);
      ("final_velocity_x", VNum final_velocity_x);
      ("final_velocity_y", VNum final_velocity_y)]).

(** [free_fall]: the square root is taken of a discriminant that has been
    tested, so it never fails. *)
Definition free_fall (height initial_velocity : R) : gmap string value :=
  let g := GRAVITY in
  let a := 0.5 * g in
  let b := initial_velocity in
  let c := - height in
  let discriminant := b ^ 2 - 4 * a * c in
  let time :=
    if decide (discriminant >= 0) then (- b + sqrt discriminant) / (2 * a) else 0 in
  let final_velocity := initial_velocity + g * time in
  dict_of [("time", VNum time); ("final_velocity", VNum final_velocity)].

(** [collision_1d]: the division raises when the masses cancel. *)
Definition collision_1d (m1 v1 m2 v2 coefficient_restitution : R) : result (R * R) :=
  let total_momentum := m1 * v1 + m2 * v2 in
  let relative_velocity := v1 - v2 in
  if decide (m1 + m2 = 0) then Raise ZeroDivisionError
  else
    let v1f := (total_momentum - m2 * coefficient_restitution * relative_velocity)
               / (m1 + m2) in
    let v2f := v1f + coefficient_restitution * relative_velocity in
    Ok (v1f, v2f).

End PhysicsMath.

(** ** The collision formulas in binary64

    The arithmetic of [_solve_collision] and of [simulate_collision] on
    Python floats: every operation is the correctly rounded IEEE binary64
    operation, [==] and [<=] are the IEEE comparisons.  The velocities are
    taken as numbers already (the list case of the solver is handled before
    the arithmetic), and only the two final velocities are returned. *)

Module Binary64.

(** [_solve_collision]: the guards, then the two closed forms with the
    operations in the order Python evaluates them. *)
Definition _solve_collision (mass_a mass_b velocity_a velocity_b : PrimFloat.float)
  : result (PrimFloat.float * PrimFloat.float) :=
  if (mass_a <=? 0)%float || (mass_b <=? 0)%float
  then Raise (ValueError "Error in collision calculation: Mass must be greater than zero")
  else
    let total_mass := (mass_a + mass_b)%float in
    if (total_mass <=? 0)%float
    then Raise (ValueError
                  "Error in collision calculation: Total mass must be greater than zero")
    else
      let velocity_a_final :=
        (((mass_a - mass_b) * velocity_a + 2 * mass_b * velocity_b) / total_mass)%float in
      let velocity_b_final :=
        (((mass_b - mass_a) * velocity_b + 2 * mass_a * velocity_a) / total_mass)%float in
      Ok (velocity_a_final, velocity_b_final).

(** [simulate_collision]: the exchange when [mass_a == mass_b]; otherwise
    the closed form, whose division raises when the masses cancel. *)
Definition simulate_collision (mass_a mass_b velocity_a velocity_b : PrimFloat.float)
  : option (PrimFloat.float * PrimFloat.float) :=
  if (mass_a =? mass_b)%float then Some (velocity_b, velocity_a)
  else if (mass_a + mass_b =? 0)%float then None
  else
    Some (((mass_a - mass_b) / (mass_a + mass_b) * velocity_a
           + (2 * mass_b) / (mass_a + mass_b) * velocity_b)%float,
          ((2 * mass_a) / (mass_a + mass_b) * velocity_a
           + (mass_b - mass_a) / (mass_a + mass_b) * velocity_b)%float).

End Binary64.

(** * Theorems *)

(** ** Arithmetic helpers *)

Lemma py_max_Rmax (a b : R) : py_max a b = Rmax a b.
Proof.
  unfold py_max, Rmax.
  destruct (decide (a < b)); destruct (Rle_dec a b); lra.
Qed.

Lemma Rmax_abs_pos (a s : R) : a <> 0 -> 0 < Rmax (Rabs a) (Rabs s).
Proof.
  intros Ha. apply Rlt_le_trans with (Rabs a).
  - now apply Rabs_pos_lt.
  - apply Rmax_l.
Qed.

(** Unfolding of the score on two numbers that are both non-zero. *)
Lemma score_nonzero (a s : R) :
  a <> 0 -> s <> 0 ->
  _calculate_agreement_score (VNum a) (VNum s)
  = Ok (Rmax 0 (1 - Rabs (a - s) / Rmax (Rabs a) (Rabs s))).
Proof.
  intros Ha Hs. unfold _calculate_agreement_score, py_eq0.
  rewrite !bool_decide_eq_false_2 by assumption. simpl.
  now rewrite !py_max_Rmax.
Qed.

Lemma score_zero_zero : _calculate_agreement_score (VNum 0) (VNum 0) = Ok 1.
Proof.
  unfold _calculate_agreement_score, py_eq0.
  now rewrite !bool_decide_eq_true_2 by reflexivity.
Qed.

Lemma score_zero_r (x : R) :
  x <> 0 -> _calculate_agreement_score (VNum x) (VNum 0) = Ok 0.
Proof.
  intros Hx. unfold _calculate_agreement_score, py_eq0.
  rewrite (bool_decide_eq_false_2 (x = 0)) by assumption.
  now rewrite bool_decide_eq_true_2 by reflexivity.
Qed.

Lemma score_zero_l (x : R) :
  x <> 0 -> _calculate_agreement_score (VNum 0) (VNum x) = Ok 0.
Proof.
  intros Hx. unfold _calculate_agreement_score, py_eq0.
  rewrite (bool_decide_eq_false_2 (x = 0)) by assumption.
  now rewrite bool_decide_eq_true_2 by reflexivity.
Qed.

(** The formula also covers the case of exactly one zero. *)
Lemma score_formula (a s : R) :
  a <> 0 \/ s <> 0 ->
  _calculate_agreement_score (VNum a) (VNum s)
  = Ok (Rmax 0 (1 - Rabs (a - s) / Rmax (Rabs a) (Rabs s))).
Proof.
  intros Hnz.
  destruct (Req_dec_T a 0) as [->|Ha]; destruct (Req_dec_T s 0) as [->|Hs].
  - destruct Hnz as [H|H]; now contradict H.
  - rewrite score_zero_l by assumption. f_equal.
    unfold Rminus at 2. rewrite Rplus_0_l, Rabs_Ropp, Rabs_R0.
    rewrite (Rmax_right 0 (Rabs s)) by apply Rabs_pos.
    unfold Rdiv. rewrite Rinv_r by now apply Rabs_no_R0.
    rewrite Rminus_diag. symmetry. apply Rmax_left. lra.
  - rewrite score_zero_r by assumption. f_equal.
    rewrite Rminus_0_r, Rabs_R0.
    rewrite (Rmax_left (Rabs a) 0) by apply Rabs_pos.
    unfold Rdiv. rewrite Rinv_r by now apply Rabs_no_R0.
    rewrite Rminus_diag. symmetry. apply Rmax_left. lra.
  - now apply score_nonzero.
Qed.

(** On two numbers the score never raises. *)
Lemma score_total (a s : R) :
  exists x, _calculate_agreement_score (VNum a) (VNum s) = Ok x /\ 0 <= x <= 1.
Proof.
  destruct (Req_dec_T a 0) as [->|Ha]; destruct (Req_dec_T s 0) as [->|Hs].
  - exists 1. split; [apply score_zero_zero | lra].
  - exists 0. split; [now apply score_zero_l | lra].
  - exists 0. split; [now apply score_zero_r | lra].
  - eexists. split; [now apply score_nonzero |].
    split; [apply Rmax_l |].
    apply Rmax_lub; [lra |].
    assert (0 <= Rabs (a - s) / Rmax (Rabs a) (Rabs s)); [| lra].
    apply Rmult_le_pos; [apply Rabs_pos |].
    left. apply Rinv_0_lt_compat. now apply Rmax_abs_pos.
Qed.

Lemma lookup_dict_truthy (d : gmap string value) (k : string) (v : value) :
  d !! k = Some v -> dict_truthy d = true.
Proof.
  intros H. unfold dict_truthy. apply bool_decide_eq_true_2.
  intros Hsz. apply map_size_empty_iff in Hsz. subst d.
  now rewrite lookup_empty in H.
Qed.

Section VerificationFacts.
Context (E : Engine) (self : SimulationEngine).

Lemma verify_solution_returns (problem : PhysicsProblem) (solution : Solution.t) :
  exists r, verify_solution E self problem solution = Ok r.
Proof.
  unfold verify_solution.
  destruct (verify_solution_body E self problem solution); eauto.
Qed.

(** A result without error comes from the last [return] of the [try]. *)
Lemma verify_solution_no_error (problem : PhysicsProblem) (solution : Solution.t)
      (r : VerificationResult.t) :
  verify_solution E self problem solution = Ok r ->
  VerificationResult.error r = None ->
  exists (score : R) (shown : display),
    r = {| VerificationResult.is_valid := bool_decide (score > 0.8);
           VerificationResult.confidence := score;
           VerificationResult.error := None;
           VerificationResult.analytical_result := Solution.answer solution;
           VerificationResult.simulation_result := Some shown;
           VerificationResult.agreement_score := score |}.
Proof.
  unfold verify_solution. intros Hv Herr.
  destruct (verify_solution_body E self problem solution) as [r0|e] eqn:Hbody;
    inversion Hv; subst r; clear Hv; [| discriminate Herr].
  unfold verify_solution_body in Hbody.
  destruct (sim_result_falsy (simulate E self problem)).
  { inversion Hbody; subst r0; discriminate Herr. }
  match type of Hbody with
  | match ?c with _ => _ end = _ => destruct c as [[[analytical simulated] unit]|]
  end.
  2: { inversion Hbody; subst r0; discriminate Herr. }
  destruct (agreement analytical simulated) as [score|]; [| discriminate Hbody].
  simpl in Hbody.
  match type of Hbody with
  | mbind _ ?m = _ => destruct m as [shown|]
  end; [| discriminate Hbody].
  simpl in Hbody. inversion Hbody. eauto.
Qed.

End VerificationFacts.

(** ** The collision solver *)

(** The closed form of [_solve_collision] on positive masses. *)
Lemma _solve_collision_closed_form (mass_a mass_b : R) (velocity_a velocity_b : value)
      (va vb : R) :
  0 < mass_a -> 0 < mass_b ->
  first_if_list velocity_a = Ok (VNum va) ->
  first_if_list velocity_b = Ok (VNum vb) ->
  exists d,
    _solve_collision mass_a mass_b velocity_a velocity_b = Ok d /\
    dict_truthy d = true /\
    d !! "unit" = Some (VStr "m/s") /\
    d !! "answer" =
      Some (VList [VNum (((mass_a - mass_b) * va + 2 * mass_b * vb) / (mass_a + mass_b));
                   VNum (((mass_b - mass_a) * vb + 2 * mass_a * va) / (mass_a + mass_b))]).
Proof.
  intros Ha Hb Hva Hvb.
  unfold _solve_collision, _solve_collision_body.
  rewrite Hva, Hvb. simpl.
  rewrite !bool_decide_eq_false_2 by lra. simpl.
  destruct (decide (mass_a + mass_b <= 0)) as [Hle|_]; [lra|].
  eexists. split; [reflexivity|].
  split; [reflexivity|]. split; reflexivity.
Qed.

Lemma solve_problem_collision (problem : PhysicsProblem) (a b : PhysicsObject)
      (rest : list PhysicsObject) (va vb : R) :
  problem_type problem = COLLISION ->
  objects problem = a :: b :: rest ->
  0 < mass a -> 0 < mass b ->
  first_if_list (velocity a) = Ok (VNum va) ->
  first_if_list (velocity b) = Ok (VNum vb) ->
  exists sol,
    solve_problem problem = Ok sol /\
    Solution.answer sol =
      VList [VNum (((mass a - mass b) * va + 2 * mass b * vb) / (mass a + mass b));
             VNum (((mass b - mass a) * vb + 2 * mass a * va) / (mass a + mass b))].
Proof.
  intros Hty Hobj Ha Hb Hva Hvb.
  destruct (_solve_collision_closed_form _ _ _ _ _ _ Ha Hb Hva Hvb)
    as (d & Hd & Htruthy & Hunit & Hans).
  unfold solve_problem. rewrite Hty, Hobj, Hd. simpl.
  rewrite Htruthy. unfold dict_item. rewrite Hans, Hunit. simpl.
  eexists. split; reflexivity.
Qed.

(** C7: for a COLLISION problem whose first two objects have positive mass
    (and a numeric velocity, taken as its first component when it is a
    list), [solve_problem] returns a solution whose answer is the pair of
    final velocities, and these conserve momentum exactly over the reals:
    [mA * vA + mB * vB = mA * vA' + mB * vB']. *)
Theorem collision_conserves_momentum (problem : PhysicsProblem) (a b : PhysicsObject)
        (rest : list PhysicsObject) (va vb : R) :
  problem_type problem = COLLISION ->
  objects problem = a :: b :: rest ->
  0 < mass a -> 0 < mass b ->
  first_if_list (velocity a) = Ok (VNum va) ->
  first_if_list (velocity b) = Ok (VNum vb) ->
  exists (sol : Solution.t) (va' vb' : R),
    solve_problem problem = Ok sol /\
    Solution.answer sol = VList [VNum va'; VNum vb'] /\
    mass a * va + mass b * vb = mass a * va' + mass b * vb'.
Proof.
  intros Hty Hobj Ha Hb Hva Hvb.
  destruct (solve_problem_collision _ _ _ _ _ _ Hty Hobj Ha Hb Hva Hvb)
    as (sol & Hsol & Hans).
  exists sol. do 2 eexists. split; [exact Hsol|]. split; [exact Hans|].
  field. lra.
Qed.

Section CollisionSim.
Context (E : Engine) (self : SimulationEngine).

Lemma simulate_collision_equal (m : R) (velocity_a velocity_b : value) :
  simulate_collision m m velocity_a velocity_b
  = Some (dict_of [("velocity_a_final", velocity_b); ("velocity_b_final", velocity_a)]).
Proof.
  unfold simulate_collision.
  destruct (decide (m = m)) as [_|Hne]; [reflexivity | now contradict Hne].
Qed.

Lemma simulate_collision_problem (problem : PhysicsProblem) (a b : PhysicsObject)
      (rest : list PhysicsObject) (va vb : value) :
  problem_type problem = COLLISION ->
  objects problem = a :: b :: rest ->
  first_if_list (velocity a) = Ok va ->
  first_if_list (velocity b) = Ok vb ->
  simulate E self problem = simulate_collision (mass a) (mass b) va vb.
Proof.
  intros Hty Hobj Hva Hvb. unfold simulate.
  rewrite Hty, Hobj. simpl. now rewrite Hva, Hvb.
Qed.

(** C8, as the code has it: for a COLLISION problem with equal positive
    masses,
    - over exact (real) arithmetic the solver's answer is [[vB; vA]]: its
      closed form reduces to the exchange;
    - the simulator's result has [velocity_a_final = vB] and
      [velocity_b_final = vA] by its explicit branch, which copies the two
      velocities: the exchange is exact in binary64 as well, for all floats
      with [mass_a == mass_b].
    In binary64 the solver's closed form is rounded and need not return
    [vB] itself, see [equal_mass_exchange_rounds_in_binary64]. *)
Theorem equal_mass_velocity_exchange (problem : PhysicsProblem) (a b : PhysicsObject)
        (rest : list PhysicsObject) (va vb : R)
        (mass_a mass_b velocity_a velocity_b : PrimFloat.float) :
  problem_type problem = COLLISION ->
  objects problem = a :: b :: rest ->
  mass a = mass b -> 0 < mass a ->
  first_if_list (velocity a) = Ok (VNum va) ->
  first_if_list (velocity b) = Ok (VNum vb) ->
  (mass_a =? mass_b)%float = true ->
  (exists sol : Solution.t,
      solve_problem problem = Ok sol /\
      Solution.answer sol = VList [VNum vb; VNum va]) /\
  (exists d : gmap string value,
      simulate E self problem = Some d /\
      d !! "velocity_a_final" = Some (VNum vb) /\
      d !! "velocity_b_final" = Some (VNum va)) /\
  Binary64.simulate_collision mass_a mass_b velocity_a velocity_b
  = Some (velocity_b, velocity_a).
Proof.
  intros Hty Hobj Hm Ha Hva Hvb Hfm. split; [| split].
  - assert (Hb : 0 < mass b) by lra.
    destruct (solve_problem_collision _ _ _ _ _ _ Hty Hobj Ha Hb Hva Hvb)
      as (sol & Hsol & Hans).
    exists sol. split; [exact Hsol|]. rewrite Hans, <- Hm.
    do 2 f_equal; [| f_equal]; f_equal; field; lra.
  - rewrite (simulate_collision_problem _ _ _ _ _ _ Hty Hobj Hva Hvb), <- Hm.
    rewrite simulate_collision_equal.
    eexists. split; [reflexivity|]. split; reflexivity.
  - unfold Binary64.simulate_collision. now rewrite Hfm.
Qed.
End CollisionSim.

(** C8 does not hold of the solver in the program's own arithmetic: with
    masses 3 and 3, [vA = 0.0] and [vB = 0.1] (the double
    [0x1.999999999999ap-4]), the solver's closed form returns
    [0.10000000000000002] (the next double) for ball A, which is not [vB];
    the simulator returns [vB] itself. *)
Lemma equal_mass_exchange_rounds_in_binary64 :
  let vA := 0%float in
  let vB := 0x1.999999999999ap-4%float in
  exists vA' vB' : PrimFloat.float,
    Binary64._solve_collision 3 3 vA vB = Ok (vA', vB') /\
    vA' = 0x1.999999999999bp-4%float /\
    (vA' =? vB)%float = false /\
    Binary64.simulate_collision 3 3 vA vB = Some (vB, vA).
Proof.
  intros vA vB. exists 0x1.999999999999bp-4%float, 0%float.
  repeat split; reflexivity.
Qed.

Lemma collision_conserves_momentum_witness :
  exists (sol : Solution.t) (va' vb' : R),
    solve_problem (collision_problem [ball "Ball A" 2 3; ball "Ball B" 1 0]) = Ok sol /\
    Solution.answer sol = VList [VNum va'; VNum vb'] /\
    2 * 3 + 1 * 0 = 2 * va' + 1 * vb'.
Proof.
  apply (collision_conserves_momentum
           (collision_problem [ball "Ball A" 2 3; ball "Ball B" 1 0])
           (ball "Ball A" 2 3) (ball "Ball B" 1 0) [] 3 0);
    simpl; first [reflexivity | lra].
Defined.

Lemma equal_mass_velocity_exchange_witness :
  (exists sol : Solution.t,
      solve_problem (collision_problem [ball "Ball A" 1 5; ball "Ball B" 1 0]) = Ok sol /\
      Solution.answer sol = VList [VNum 0; VNum 5]) /\
  (exists d : gmap string value,
      simulate ballistic_engine SimulationEngine_init
               (collision_problem [ball "Ball A" 1 5; ball "Ball B" 1 0])
      = Some d /\
      d !! "velocity_a_final" = Some (VNum 0) /\
      d !! "velocity_b_final" = Some (VNum 5)) /\
  Binary64.simulate_collision 1 1 5 0 = Some (0%float, 5%float).
Proof.
  apply (equal_mass_velocity_exchange ballistic_engine SimulationEngine_init
           (collision_problem [ball "Ball A" 1 5; ball "Ball B" 1 0])
           (ball "Ball A" 1 5) (ball "Ball B" 1 0) [] 5 0);
    simpl; first [reflexivity | lra].
Defined.

Section VerifyCollision.
Context (E : Engine) (self : SimulationEngine).

(** [verify_solution] on a collision whose simulation produced two
    numbers and whose answer is a pair of numbers. *)
Lemma verify_solution_collision (problem : PhysicsProblem) (solution : Solution.t)
      (d : gmap string value) (a0 a1 s0 s1 : R) :
  problem_type problem = COLLISION ->
  simulate E self problem = Some d ->
  d !! "velocity_a_final" = Some (VNum s0) ->
  d !! "velocity_b_final" = Some (VNum s1) ->
  Solution.answer solution = VList [VNum a0; VNum a1] ->
  exists score_a score_b : R,
    _calculate_agreement_score (VNum a0) (VNum s0) = Ok score_a /\
    _calculate_agreement_score (VNum a1) (VNum s1) = Ok score_b /\
    verify_solution E self problem solution =
      Ok {| VerificationResult.is_valid :=
              bool_decide (score_a * 0.5 + score_b * 0.5 > 0.8);
            VerificationResult.confidence := score_a * 0.5 + score_b * 0.5;
            VerificationResult.error := None;
            VerificationResult.analytical_result := VList [VNum a0; VNum a1];
            VerificationResult.simulation_result := Some (DisplayCollision s0 s1);
            VerificationResult.agreement_score := score_a * 0.5 + score_b * 0.5 |}.
Proof.
  intros Hty Hsim Ha Hb Hans.
  destruct (score_total a0 s0) as (sa & Hsa & _).
  destruct (score_total a1 s1) as (sb & Hsb & _).
  exists sa, sb. split; [exact Hsa|]. split; [exact Hsb|].
  unfold verify_solution, verify_solution_body.
  rewrite Hsim. simpl. rewrite (lookup_dict_truthy _ _ _ Ha). simpl.
  rewrite Hty, Hans. unfold dict_get. rewrite Ha, Hb. simpl.
  unfold agreement. simpl. rewrite Hsa. simpl. rewrite Hsb. simpl.
  reflexivity.
Qed.

End VerifyCollision.

Lemma score_symmetric (a s : R) :
  _calculate_agreement_score (VNum a) (VNum s)
  = _calculate_agreement_score (VNum s) (VNum a).
Proof.
  destruct (Req_dec_T a 0) as [->|Ha]; destruct (Req_dec_T s 0) as [->|Hs].
  - reflexivity.
  - now rewrite score_zero_l, score_zero_r.
  - now rewrite score_zero_l, score_zero_r.
  - rewrite !score_nonzero by assumption.
    now rewrite (Rabs_minus_sym a s), (Rmax_comm (Rabs a) (Rabs s)).
Qed.

Lemma score_same (x : R) :
  x <> 0 -> _calculate_agreement_score (VNum x) (VNum x) = Ok 1.
Proof.
  intros Hx. rewrite score_nonzero by assumption. f_equal.
  unfold Rminus at 2. rewrite Rplus_opp_r, Rabs_R0.
  unfold Rdiv. rewrite Rmult_0_l, Rminus_0_r.
  apply Rmax_right. lra.
Qed.

(** C10: on numbers the agreement score is symmetric, lies in [[0, 1]], is 1
    on [(x, x)] for non-zero [x] and on [(0, 0)], and is 0 on [(x, 0)] for
    non-zero [x]. *)
Theorem agreement_score_symmetric_bounded :
  (forall a s : R,
      _calculate_agreement_score (VNum a) (VNum s)
      = _calculate_agreement_score (VNum s) (VNum a)) /\
  (forall a s : R,
      exists x : R,
        _calculate_agreement_score (VNum a) (VNum s) = Ok x /\ 0 <= x <= 1) /\
  (forall x : R, x <> 0 -> _calculate_agreement_score (VNum x) (VNum x) = Ok 1) /\
  _calculate_agreement_score (VNum 0) (VNum 0) = Ok 1 /\
  (forall x : R, x <> 0 -> _calculate_agreement_score (VNum x) (VNum 0) = Ok 0).
Proof.
  split; [exact score_symmetric|].
  split; [exact score_total|].
  split; [exact score_same|].
  split; [exact score_zero_zero | exact score_zero_r].
Qed.

Lemma agreement_score_symmetric_bounded_witness :
  _calculate_agreement_score (VNum 5) (VNum 5) = Ok 1 /\
  _calculate_agreement_score (VNum 5) (VNum 0) = Ok 0.
Proof.
  destruct agreement_score_symmetric_bounded as (_ & _ & Hsame & _ & Hzero).
  split; [apply Hsame | apply Hzero]; lra.
Defined.

Section Claims.
Context (E : Engine) (self : SimulationEngine).

(** C1: whenever [verify_solution] returns a result whose [error] is [None],
    that result has [is_valid = (agreement_score > 0.8)] and
    [confidence = agreement_score]. *)
Theorem verification_validity_invariant (problem : PhysicsProblem)
        (solution : Solution.t) (r : VerificationResult.t) :
  verify_solution E self problem solution = Ok r ->
  VerificationResult.error r = None ->
  VerificationResult.is_valid r
  = bool_decide (VerificationResult.agreement_score r > 0.8) /\
  VerificationResult.confidence r = VerificationResult.agreement_score r.
Proof.
  intros Hv Herr.
  destruct (verify_solution_no_error E self _ _ _ Hv Herr) as (score & shown & ->).
  split; reflexivity.
Qed.

(** C2: the scalar agreement score is
    [max(0, 1 - |a - s| / max(|a|, |s|))] unless both numbers are zero, it is
    1 when both are zero and 0 when exactly one is; and for a collision whose
    answer and simulation are pairs of numbers, the agreement score of
    [verify_solution] is the average, with weights 0.5 and 0.5, of the two
    component scores. *)
Theorem agreement_score_formula :
  (forall a s : R,
      a <> 0 \/ s <> 0 ->
      _calculate_agreement_score (VNum a) (VNum s)
      = Ok (Rmax 0 (1 - Rabs (a - s) / Rmax (Rabs a) (Rabs s)))) /\
  _calculate_agreement_score (VNum 0) (VNum 0) = Ok 1 /\
  (forall x : R,
      x <> 0 ->
      _calculate_agreement_score (VNum x) (VNum 0) = Ok 0 /\
      _calculate_agreement_score (VNum 0) (VNum x) = Ok 0) /\
  (forall (problem : PhysicsProblem) (solution : Solution.t)
          (d : gmap string value) (a0 a1 s0 s1 : R),
      problem_type problem = COLLISION ->
      simulate E self problem = Some d ->
      d !! "velocity_a_final" = Some (VNum s0) ->
      d !! "velocity_b_final" = Some (VNum s1) ->
      Solution.answer solution = VList [VNum a0; VNum a1] ->
      exists (score_a score_b : R) (r : VerificationResult.t),
        _calculate_agreement_score (VNum a0) (VNum s0) = Ok score_a /\
        _calculate_agreement_score (VNum a1) (VNum s1) = Ok score_b /\
        verify_solution E self problem solution = Ok r /\
        VerificationResult.error r = None /\
        VerificationResult.agreement_score r = 0.5 * score_a + 0.5 * score_b).
Proof.
  split; [exact score_formula|].
  split; [exact score_zero_zero|].
  split; [intros x Hx; split; [now apply score_zero_r | now apply score_zero_l]|].
  intros problem solution d a0 a1 s0 s1 Hty Hsim Ha Hb Hans.
  destruct (verify_solution_collision E self _ _ _ _ _ _ _ Hty Hsim Ha Hb Hans)
    as (sa & sb & Hsa & Hsb & Hv).
  exists sa, sb. eexists. split; [exact Hsa|]. split; [exact Hsb|].
  split; [exact Hv|]. split; [reflexivity|]. simpl. lra.
Qed.

(** C3 at a collision problem with one object missing and the answer
    [[0; 0]]: the simulator reports its failure as the dictionary
    [{'error': 'Simulation failed: list index out of range'}], which
    [verify_solution] takes for a result: it compares the answer with the
    defaults [0] and [0] and returns [is_valid = True], [confidence = 1] and
    no error. *)
Theorem verify_solution_misses_error_dict :
  let problem := collision_problem [ball "Ball A" 1 5] in
  let solution := collision_solution 0 0 in
  simulate E self problem
  = Some (dict_of [("error", VStr "Simulation failed: list index out of range")]) /\
  exists r : VerificationResult.t,
    verify_solution E self problem solution = Ok r /\
    VerificationResult.is_valid r = true /\
    VerificationResult.confidence r = 1 /\
    VerificationResult.error r = None.
Proof.
  intros problem solution.
  assert (Hsim : simulate E self problem
                 = Some (dict_of [("error",
                                   VStr "Simulation failed: list index out of range")]))
    by reflexivity.
  split; [exact Hsim|].
  assert (Htruthy : dict_truthy
                      (dict_of [("error",
                                 VStr "Simulation failed: list index out of range")])
                    = true) by reflexivity.
  assert (Hget : forall k : string,
             k <> "error" ->
             dict_get (dict_of [("error",
                                 VStr "Simulation failed: list index out of range")])
                      k (VNum 0) = VNum 0).
  { intros k Hk. unfold dict_get, dict_of. simpl.
    rewrite lookup_insert_ne by congruence. now rewrite lookup_empty. }
  unfold verify_solution, verify_solution_body. rewrite Hsim.
  unfold sim_result_falsy. rewrite Htruthy. simpl negb. cbv iota.
  simpl default. simpl problem_type. cbv iota.
  rewrite !Hget by discriminate.
  unfold agreement. simpl. rewrite score_zero_zero. simpl.
  eexists. split; [reflexivity|]. simpl.
  split; [| split; [lra | reflexivity]].
  apply bool_decide_eq_true_2. lra.
Qed.

(** The two failure paths that [verify_solution] does handle: no simulation
    result, and an exception in the comparison. *)
Lemma verify_solution_simulation_none (problem : PhysicsProblem)
      (solution : Solution.t) :
  simulate E self problem = None ->
  verify_solution E self problem solution
  = Ok (failed_verification "Simulation failed to run" (DisplayText "Simulation failed")).
Proof.
  intros Hsim. unfold verify_solution, verify_solution_body. now rewrite Hsim.
Qed.

Lemma verify_solution_comparison_raises (problem : PhysicsProblem)
      (solution : Solution.t) (e : exn) :
  verify_solution_body E self problem solution = Raise e ->
  verify_solution E self problem solution
  = Ok (failed_verification (str_exn e) (DisplayError (str_exn e))).
Proof. intros Hbody. unfold verify_solution. now rewrite Hbody. Qed.

End Claims.

Lemma agreement_score_formula_witness :
  _calculate_agreement_score (VNum 5) (VNum 4)
  = Ok (Rmax 0 (1 - Rabs (5 - 4) / Rmax (Rabs 5) (Rabs 4))) /\
  _calculate_agreement_score (VNum 5) (VNum 0) = Ok 0.
Proof.
  destruct (agreement_score_formula ballistic_engine SimulationEngine_init)
    as (Hformula & _ & Hzero & _).
  split; [apply Hformula; left; lra | apply Hzero; lra].
Defined.

Lemma verification_validity_invariant_witness :
  exists r : VerificationResult.t,
    verify_solution ballistic_engine SimulationEngine_init
      (collision_problem [ball "Ball A" 1 5; ball "Ball B" 1 0])
      (collision_solution 0 5) = Ok r /\
    VerificationResult.error r = None /\
    VerificationResult.is_valid r
    = bool_decide (VerificationResult.agreement_score r > 0.8) /\
    VerificationResult.confidence r = VerificationResult.agreement_score r.
Proof.
  destruct (verify_solution_collision ballistic_engine SimulationEngine_init
              (collision_problem [ball "Ball A" 1 5; ball "Ball B" 1 0])
              (collision_solution 0 5)
              (dict_of [("velocity_a_final", VNum 0); ("velocity_b_final", VNum 5)])
              0 5 0 5) as (sa & sb & _ & _ & Hv).
  - reflexivity.
  - simpl. rewrite (simulate_collision_problem ballistic_engine SimulationEngine_init _
                      (ball "Ball A" 1 5) (ball "Ball B" 1 0) [] (VNum 5) (VNum 0))
      by reflexivity.
    apply simulate_collision_equal.
  - reflexivity.
  - reflexivity.
  - reflexivity.
  - eexists. split; [exact Hv|]. split; [reflexivity|].
    apply (verification_validity_invariant ballistic_engine SimulationEngine_init _ _ _ Hv). reflexivity.
Defined.

(** ** The free-fall solver *)

Lemma math_sqrt_nonneg (x : R) : 0 <= x -> math_sqrt x = Ok (sqrt x).
Proof. intros Hx. unfold math_sqrt. destruct (decide (x < 0)); [lra | reflexivity]. Qed.

Lemma math_sqrt_neg (x : R) : x < 0 -> math_sqrt x = Raise (ValueError "math domain error").
Proof. intros Hx. unfold math_sqrt. destruct (decide (x < 0)); [reflexivity | lra]. Qed.

Section FreeFallSolver.
Context (problem : PhysicsProblem).
Let ic := initial_conditions problem.

Lemma _solve_free_fall_time_based (t : R) :
  dict_get ic "time" (VNum 0) = VNum t -> t > 0 ->
  _solve_free_fall problem =
    let quantity_asked := dict_get ic "quantity_asked" (VStr "final_velocity") in
    dict_of [
      ("distance", VNum (0.5 * 9.81 * t * t));
      ("final_velocity", VNum (9.81 * t));
      ("time_fall", VNum t);
      ("initial_velocity", dict_get ic "initial_velocity" (VNum 0));
      ("answer", if py_eq_str quantity_asked "distance"
                 then VNum (0.5 * 9.81 * t * t) else VNum (9.81 * t));
      ("unit", if py_eq_str quantity_asked "distance"
               then VStr "m" else VStr "m/s")].
Proof.
  intros Ht Hpos. unfold _solve_free_fall. fold ic. rewrite Ht. simpl.
  destruct (decide (t > 0)); [reflexivity | lra].
Qed.

Lemma _solve_free_fall_height_based (t h : R) :
  dict_get ic "time" (VNum 0) = VNum t -> t <= 0 ->
  dict_get ic "height" (VNum 0) = VNum h -> 0 <= h ->
  _solve_free_fall problem =
    let quantity_asked := dict_get ic "quantity_asked" (VStr "final_velocity") in
    dict_of [
      ("distance", VNum h);
      ("final_velocity", VNum (sqrt (2 * 9.81 * h)));
      ("time_fall", VNum (sqrt (2 * h / 9.81)));
      ("initial_velocity", dict_get ic "initial_velocity" (VNum 0));
      ("answer", if py_eq_str quantity_asked "final_velocity"
                 then VNum (sqrt (2 * 9.81 * h)) else VNum h);
      ("unit", if py_eq_str quantity_asked "final_velocity"
               then VStr "m/s" else VStr "m")].
Proof.
  intros Ht Hle Hh Hpos. unfold _solve_free_fall. fold ic. rewrite Ht, Hh. simpl.
  destruct (decide (t > 0)) as [Hgt|_]; [lra|]. simpl.
  rewrite (math_sqrt_nonneg (2 * 9.81 * h)) by lra. simpl.
  rewrite (math_sqrt_nonneg (2 * h / 9.81)) by lra.
  reflexivity.
Qed.

Lemma _solve_free_fall_below_ground (t h : R) :
  dict_get ic "time" (VNum 0) = VNum t -> t <= 0 ->
  dict_get ic "height" (VNum 0) = VNum h -> h < 0 ->
  _solve_free_fall problem = error_dict (ValueError "math domain error").
Proof.
  intros Ht Hle Hh Hneg. unfold _solve_free_fall. fold ic. rewrite Ht, Hh. simpl.
  destruct (decide (t > 0)) as [Hgt|_]; [lra|]. simpl.
  rewrite (math_sqrt_neg (2 * 9.81 * h)) by lra. reflexivity.
Qed.

(** The error dictionary has none of the keys [solve_problem] reads. *)
Lemma set_answer_error_dict (e : exn) (key unit : string) :
  key <> "error" ->
  set_answer (error_dict e) key unit = Raise (KeyError key).
Proof.
  intros Hk. unfold set_answer, dict_item, error_dict, dict_of. simpl.
  rewrite lookup_insert_ne by congruence. now rewrite lookup_empty.
Qed.

Lemma solve_problem_free_fall_error_dict (e : exn) :
  problem_type problem = FREE_FALL ->
  _solve_free_fall problem = error_dict e ->
  exists key : string, solve_problem problem = Raise (KeyError key).
Proof.
  intros Hty Hd. unfold solve_problem. rewrite Hty, Hd.
  replace (dict_truthy (error_dict e)) with true by reflexivity.
  repeat match goal with
         | |- context [if py_eq_str ?v ?s then _ else _] => destruct (py_eq_str v s)
         end;
    rewrite set_answer_error_dict by discriminate; simpl; eauto.
Qed.

End FreeFallSolver.

Lemma set_answer_ok (d : gmap string value) (key unit : string) (v : value) :
  d !! key = Some v ->
  set_answer d key unit = Ok (<["unit" := VStr unit]> (<["answer" := v]> d)).
Proof. intros Hk. unfold set_answer, dict_item. now rewrite Hk. Qed.

(** [solve_problem] on a free-fall problem that asks for the final
    velocity, once [_solve_free_fall] has produced that key. *)
Lemma solve_problem_free_fall_final_velocity (problem : PhysicsProblem)
      (d : gmap string value) (v : value) :
  problem_type problem = FREE_FALL ->
  _solve_free_fall problem = d ->
  d !! "final_velocity" = Some v ->
  dict_get (initial_conditions problem) "quantity_asked" (VStr "final_velocity")
  = VStr "final_velocity" ->
  exists sol : Solution.t,
    solve_problem problem = Ok sol /\ Solution.answer sol = v.
Proof.
  intros Hty Hd Hv Hq. unfold solve_problem. rewrite Hty, Hd, Hq.
  rewrite (lookup_dict_truthy _ _ _ Hv).
  replace (py_eq_str (VStr "final_velocity") "final_velocity") with true by reflexivity.
  rewrite (set_answer_ok _ _ _ _ Hv). simpl.
  rewrite (lookup_dict_truthy _ "unit" (VStr "m/s")) by apply lookup_insert_eq.
  unfold dict_item.
  rewrite (lookup_insert_ne _ "unit" "answer") by (intros ?; discriminate).
  rewrite !lookup_insert_eq. simpl.
  eexists. split; reflexivity.
Qed.

(** At height 0 every quantity of the height-based branch is 0, so the
    answer is 0 whatever is asked: the final velocity [sqrt (2 * g * 0)], the
    distance (the height itself), and the time [sqrt (2 * 0 / g)]. *)
Lemma solve_problem_free_fall_ground_level (problem : PhysicsProblem) (t : R) :
  problem_type problem = FREE_FALL ->
  dict_get (initial_conditions problem) "time" (VNum 0) = VNum t -> t <= 0 ->
  dict_get (initial_conditions problem) "height" (VNum 0) = VNum 0 ->
  exists sol : Solution.t,
    solve_problem problem = Ok sol /\ Solution.answer sol = VNum 0.
Proof.
  intros Hty Ht Hle Hh.
  pose proof (_solve_free_fall_height_based problem t 0 Ht Hle Hh (Rle_refl 0)) as Hd.
  cbv zeta in Hd.
  assert (Hv : sqrt (2 * 9.81 * 0) = 0)
    by (replace (2 * 9.81 * 0) with 0 by lra; apply sqrt_0).
  assert (Htf : sqrt (2 * 0 / 9.81) = 0)
    by (replace (2 * 0 / 9.81) with 0 by lra; apply sqrt_0).
  rewrite Hv, Htf in Hd.
  unfold solve_problem. rewrite Hty, Hd.
  rewrite (lookup_dict_truthy _ "distance" (VNum 0)) by reflexivity.
  destruct (py_eq_str (dict_get (initial_conditions problem) "quantity_asked"
                                (VStr "final_velocity")) "final_velocity");
    [| destruct (py_eq_str (dict_get (initial_conditions problem) "quantity_asked"
                                     (VStr "final_velocity")) "distance");
       [| destruct (py_eq_str (dict_get (initial_conditions problem) "quantity_asked"
                                        (VStr "final_velocity")) "time_fall")]];
    rewrite (set_answer_ok _ _ _ (VNum 0)) by reflexivity;
    cbn [fmap result_fmap mbind result_bind];
    (rewrite (lookup_dict_truthy _ "unit" _ (lookup_insert_eq _ _ _)));
    unfold dict_item;
    rewrite (lookup_insert_ne _ "unit" "answer") by (intros ?; discriminate);
    rewrite !lookup_insert_eq; cbn [mbind result_bind];
    (eexists; split; reflexivity).
Qed.

(** C4, as the code has it: for a FREE_FALL problem whose time is at most 0
    (or absent),
    - with a height below 0, [solve_problem] raises and returns no solution;
    - with height 0 (or absent), it returns a solution whose answer is 0,
      whatever quantity is asked. *)
Theorem free_fall_below_ground_fails (problem : PhysicsProblem) (t h : R) :
  problem_type problem = FREE_FALL ->
  dict_get (initial_conditions problem) "time" (VNum 0) = VNum t -> t <= 0 ->
  dict_get (initial_conditions problem) "height" (VNum 0) = VNum h ->
  (h < 0 -> exists e : exn, solve_problem problem = Raise e) /\
  (h = 0 ->
   exists sol : Solution.t,
     solve_problem problem = Ok sol /\ Solution.answer sol = VNum 0).
Proof.
  intros Hty Ht Hle Hh. split.
  - intros Hneg.
    destruct (solve_problem_free_fall_error_dict problem
                (ValueError "math domain error") Hty) as [key Hkey].
    + now apply (_solve_free_fall_below_ground problem t h).
    + eauto.
  - intros ->. now apply (solve_problem_free_fall_ground_level problem t).
Qed.

(** C4 fails at height 0 and time 0: both are at most 0, and
    [solve_problem] returns a solution, with answer 0. *)
Lemma free_fall_ground_level_solves :
  let problem := free_fall_problem [("height", VNum 0); ("time", VNum 0);
                                    ("quantity_asked", VStr "final_velocity")] in
  dict_get (initial_conditions problem) "height" (VNum 0) = VNum 0 /\
  dict_get (initial_conditions problem) "time" (VNum 0) = VNum 0 /\
  exists sol : Solution.t,
    solve_problem problem = Ok sol /\ Solution.answer sol = VNum 0.
Proof.
  intros problem. split; [reflexivity|]. split; [reflexivity|].
  destruct (solve_problem_free_fall_final_velocity problem
              (_solve_free_fall problem) (VNum (sqrt (2 * 9.81 * 0))))
    as (sol & Hsol & Hans); try reflexivity.
  - rewrite (_solve_free_fall_height_based problem 0 0) by (reflexivity || lra).
    reflexivity.
  - exists sol. split; [exact Hsol|]. rewrite Hans. f_equal.
    replace (2 * 9.81 * 0) with 0 by lra. apply sqrt_0.
Qed.

Lemma free_fall_below_ground_fails_witness :
  (exists e : exn,
      solve_problem (free_fall_problem [("height", VNum (-5))]) = Raise e) /\
  (exists sol : Solution.t,
      solve_problem (free_fall_problem [("time", VNum (-1));
                                        ("quantity_asked", VStr "time_fall")]) = Ok sol /\
      Solution.answer sol = VNum 0).
Proof.
  split.
  - apply (free_fall_below_ground_fails
             (free_fall_problem [("height", VNum (-5))]) 0 (-5));
      first [reflexivity | lra].
  - apply (free_fall_below_ground_fails
             (free_fall_problem [("time", VNum (-1));
                                 ("quantity_asked", VStr "time_fall")]) (-1) 0);
      first [reflexivity | lra].
Defined.

(** ** The projectile solver *)

(** Decimal literals as fractions, for [field]. *)
Lemma GRAVITY_fraction : GRAVITY = 981 / 100.
Proof. unfold GRAVITY. lra. Qed.

Lemma half_fraction : 0.5 = 1 / 2.
Proof. lra. Qed.

(** Launched from height 0 below the horizontal, the discriminant's root is
    [- v0y], the first root of the quadratic is 0 and is kept: the flight
    time and the range are 0. *)
Lemma _solve_projectile_motion_level_downward (v0 angle : R) :
  0 < v0 -> sin (math_radians angle) < 0 ->
  let d := _solve_projectile_motion (VNum v0) (VNum angle) (VNum 0) in
  d !! "time_flight" = Some (VNum 0) /\ d !! "range" = Some (VNum 0).
Proof.
  intros Hv0 Hsin d. subst d.
  assert (Hg := GRAVITY_fraction). assert (Hhalf := half_fraction).
  unfold _solve_projectile_motion. cbn [mbind result_bind to_num].
  set (theta := math_radians angle) in *.
  set (v0y := v0 * sin theta).
  assert (Hy : v0y < 0) by (unfold v0y; nra).
  assert (Hdisc : (- v0y) ^ 2 - 4 * (0.5 * GRAVITY) * - 0 = (- v0y) ^ 2)
    by (rewrite Hg, Hhalf; field).
  rewrite Hdisc.
  assert (Hsq : 0 <= (- v0y) ^ 2) by apply pow2_ge_0.
  destruct (decide ((- v0y) ^ 2 < 0)) as [Hneg|_]; [lra|].
  rewrite (math_sqrt_nonneg _ Hsq). cbn [mbind result_bind].
  rewrite sqrt_pow2 by lra.
  assert (Htf : (- - v0y + - v0y) / (2 * (0.5 * GRAVITY)) = 0)
    by (rewrite Hg, Hhalf; field).
  rewrite Htf.
  destruct (decide (0 < 0)) as [Hneg|_]; [lra|].
  rewrite math_sqrt_nonneg
    by (apply Rplus_le_le_0_compat; apply pow2_ge_0).
  cbn [mbind result_bind catch_error_dict]. split; [reflexivity|].
  replace (v0 * cos theta * 0) with 0 by ring. reflexivity.
Qed.

(** C9, as the code has it: launched from height 0 with positive speed at an
    angle [theta],
    - when the launch does not point below the horizontal
      ([sin theta >= 0]), the solver's time of flight is
      [2 * v0 * sin theta / g] and its range is
      [v0^2 * sin (2 * theta) / g];
    - when it points below the horizontal ([sin theta < 0]), the solver's
      time of flight and range are both 0. *)
Theorem projectile_range_level_ground (v0 angle : R) :
  0 < v0 ->
  let theta := math_radians angle in
  let d := _solve_projectile_motion (VNum v0) (VNum angle) (VNum 0) in
  (0 <= sin theta ->
   d !! "time_flight" = Some (VNum (2 * v0 * sin theta / GRAVITY)) /\
   d !! "range" = Some (VNum (v0 ^ 2 * sin (2 * theta) / GRAVITY))) /\
  (sin theta < 0 ->
   d !! "time_flight" = Some (VNum 0) /\ d !! "range" = Some (VNum 0)).
Proof.
  intros Hv0 theta d. split; [| now apply _solve_projectile_motion_level_downward].
  intros Hsin. subst d.
  assert (Hg := GRAVITY_fraction). assert (Hhalf := half_fraction).
  assert (Hy : 0 <= v0 * sin theta) by (apply Rmult_le_pos; lra).
  unfold _solve_projectile_motion. cbn [mbind result_bind to_num]. fold theta.
  set (v0y := v0 * sin theta) in *.
  assert (Hdisc : (- v0y) ^ 2 - 4 * (0.5 * GRAVITY) * - 0 = v0y ^ 2) by (rewrite Hg, Hhalf; field).
  rewrite Hdisc.
  assert (Hsq : 0 <= v0y ^ 2) by apply pow2_ge_0.
  destruct (decide (v0y ^ 2 < 0)) as [Hneg|_]; [lra|].
  rewrite (math_sqrt_nonneg _ Hsq). cbn [mbind result_bind].
  rewrite sqrt_pow2 by exact Hy.
  assert (Htf : (- - v0y + v0y) / (2 * (0.5 * GRAVITY)) = 2 * v0y / GRAVITY)
    by (rewrite Hg, Hhalf; field).
  rewrite Htf.
  assert (Htf0 : 0 <= 2 * v0y / GRAVITY).
  { rewrite Hg. apply Rmult_le_pos; [lra|]. left. apply Rinv_0_lt_compat. lra. }
  destruct (decide (2 * v0y / GRAVITY < 0)) as [Hneg|_]; [lra|].
  rewrite math_sqrt_nonneg
    by (apply Rplus_le_le_0_compat; apply pow2_ge_0).
  cbn [mbind result_bind catch_error_dict]. split.
  - replace (2 * v0 * sin theta / GRAVITY) with (2 * v0y / GRAVITY)
      by (unfold v0y; rewrite Hg; field).
    reflexivity.
  - replace (v0 ^ 2 * sin (2 * theta) / GRAVITY)
      with (v0 * cos theta * (2 * v0y / GRAVITY))
      by (unfold v0y; rewrite sin_2a, Hg; field).
    reflexivity.
Qed.

(** The angles of the two sample launches. *)
Lemma sin_radians_45 : sin (math_radians 45) = 1 / sqrt 2.
Proof.
  replace (math_radians 45) with (PI / 4) by (unfold math_radians; field).
  apply sin_PI4.
Qed.

Lemma sin_radians_minus_45 : sin (math_radians (-45)) = - (1 / sqrt 2).
Proof.
  replace (math_radians (-45)) with (- (PI / 4)) by (unfold math_radians; field).
  now rewrite sin_neg, sin_PI4.
Qed.

Lemma inv_sqrt2_pos : 0 < 1 / sqrt 2.
Proof. apply Rdiv_lt_0_compat; [lra | apply sqrt_lt_R0; lra]. Qed.

Lemma projectile_range_level_ground_witness :
  (let theta := math_radians 45 in
   let d := _solve_projectile_motion (VNum 20) (VNum 45) (VNum 0) in
   d !! "time_flight" = Some (VNum (2 * 20 * sin theta / GRAVITY)) /\
   d !! "range" = Some (VNum (20 ^ 2 * sin (2 * theta) / GRAVITY)) /\
   20 ^ 2 * sin (2 * theta) / GRAVITY = 400 / 9.81) /\
  (let d := _solve_projectile_motion (VNum 20) (VNum (-45)) (VNum 0) in
   d !! "time_flight" = Some (VNum 0) /\ d !! "range" = Some (VNum 0)).
Proof.
  pose proof inv_sqrt2_pos as Hpos. split.
  - destruct (projectile_range_level_ground 20 45) as [Hup _]; [lra|].
    destruct Hup as [Htf Hrange]; [rewrite sin_radians_45; lra|].
    split; [exact Htf|]. split; [exact Hrange|].
    replace (2 * math_radians 45) with (PI / 2) by (unfold math_radians; field).
    rewrite sin_PI2. unfold GRAVITY. lra.
  - destruct (projectile_range_level_ground 20 (-45)) as [_ Hdown]; [lra|].
    apply Hdown. rewrite sin_radians_minus_45. lra.
Defined.

(** Outside the hypothesis of C9: launched at 45 degrees below the horizontal
    from the ground, the solver's flight time and range are zero. *)
Lemma projectile_launched_downwards (v0 : R) :
  0 < v0 ->
  let d := _solve_projectile_motion (VNum v0) (VNum (-45)) (VNum 0) in
  d !! "time_flight" = Some (VNum 0) /\
  d !! "range" = Some (VNum (v0 * cos (math_radians (-45)) * 0)) /\
  v0 ^ 2 * sin (2 * math_radians (-45)) / GRAVITY < 0.
Proof.
  intros Hv0 d. subst d.
  assert (Hg := GRAVITY_fraction). assert (Hhalf := half_fraction).
  assert (Hrad : math_radians (-45) = - (PI / 4)) by (unfold math_radians; field).
  assert (Hs : sin (math_radians (-45)) = - (1 / sqrt 2))
    by (rewrite Hrad, sin_neg, sin_PI4; reflexivity).
  assert (Hsqrt2 : 0 < sqrt 2) by (apply sqrt_lt_R0; lra).
  assert (Hinv : 0 < 1 / sqrt 2) by (apply Rdiv_lt_0_compat; lra).
  unfold _solve_projectile_motion. cbn [mbind result_bind to_num].
  set (v0y := v0 * sin (math_radians (-45))).
  assert (Hy : v0y < 0) by (unfold v0y; rewrite Hs; nra).
  assert (Hdisc : (- v0y) ^ 2 - 4 * (0.5 * GRAVITY) * - 0 = (- v0y) ^ 2)
    by (rewrite Hg, Hhalf; field).
  rewrite Hdisc.
  assert (Hsq : 0 <= (- v0y) ^ 2) by apply pow2_ge_0.
  destruct (decide ((- v0y) ^ 2 < 0)) as [Hneg|_]; [lra|].
  rewrite (math_sqrt_nonneg _ Hsq). cbn [mbind result_bind].
  rewrite sqrt_pow2 by lra.
  assert (Htf : (- - v0y + - v0y) / (2 * (0.5 * GRAVITY)) = 0)
    by (rewrite Hg, Hhalf; field).
  rewrite Htf.
  destruct (decide (0 < 0)) as [Hneg|_]; [lra|].
  rewrite math_sqrt_nonneg
    by (apply Rplus_le_le_0_compat; apply pow2_ge_0).
  cbn [mbind result_bind catch_error_dict]. split; [reflexivity|]. split; [reflexivity|].
  replace (2 * math_radians (-45)) with (- (PI / 2)) by (rewrite Hrad; field).
  rewrite sin_neg, sin_PI2, Hg.
  assert (0 < v0 ^ 2) by (apply pow_lt; lra).
  assert (Hpos : 0 < v0 ^ 2 / (981 / 100)) by (apply Rdiv_lt_0_compat; lra).
  lra.
Qed.

(** C9 does not hold for every input the solver accepts: launched at 20 m/s,
    45 degrees below the horizontal, from height 0, the solver's range is 0
    and not the negative value of the formula. *)
Lemma projectile_range_downward_launch :
  let d := _solve_projectile_motion (VNum 20) (VNum (-45)) (VNum 0) in
  exists range_x : R,
    d !! "range" = Some (VNum range_x) /\
    range_x <> 20 ^ 2 * sin (2 * math_radians (-45)) / GRAVITY.
Proof.
  intros d. subst d.
  destruct (projectile_launched_downwards 20) as (_ & Hrange & Hneg); [lra|].
  eexists. split; [exact Hrange|]. lra.
Qed.

(** ** The free-fall simulator *)

Section FreeFallSimulation.
Context (E : Engine) (self : SimulationEngine).

(** What a successful [simulate_free_fall] returned. *)
Lemma simulate_free_fall_inv (height initial_velocity time : value)
      (r : gmap string value) :
  simulate_free_fall E self height initial_velocity time = Some r ->
  exists t : R,
    time = VNum t /\
    ((t > 0 /\
      r = dict_of [
            ("distance", VNum (0.5 * 9.81 * t * t));
            ("final_velocity", VNum (9.81 * t));
            ("time_fall", VNum t);
            ("height", height);
            ("initial_velocity", initial_velocity);
            ("theoretical_distance", VNum (0.5 * 9.81 * t * t));
            ("theoretical_velocity", VNum (9.81 * t))]) \/
     (t <= 0 /\
      exists h : R,
        height = VNum h /\ 0 <= h /\
        r = dict_of [
              ("distance", VNum h);
              ("final_velocity", VNum (sqrt (2 * 9.81 * h)));
              ("time_fall", VNum (sqrt (2 * h / 9.81)));
              ("height", VNum h);
              ("initial_velocity", initial_velocity);
              ("theoretical_distance", VNum h);
              ("theoretical_velocity", VNum (sqrt (2 * 9.81 * h)))])).
Proof.
  unfold simulate_free_fall. intros Hsim.
  destruct (connect E (time_step self)) as [w|]; [| discriminate Hsim].
  destruct time as [|t| |]; try discriminate Hsim.
  exists t. split; [reflexivity|].
  cbn [mbind result_bind to_num] in Hsim.
  destruct (decide (t > 0)) as [Hgt|Hle].
  - left. split; [exact Hgt|].
    cbn [mbind result_bind] in Hsim.
    destruct height as [|h| |]; try discriminate Hsim.
    destruct initial_velocity as [|v0| |]; try discriminate Hsim.
    cbn [mbind result_bind to_num] in Hsim.
    destruct (spawn_sphere E w (0, 0, h) (0, 0, - v0)) as [w1|];
      [| discriminate Hsim].
    cbn [mbind result_bind engine_call] in Hsim.
    destruct (free_fall_loop E _ w1 t); [| discriminate Hsim].
    cbn [mbind result_bind catch_none] in Hsim.
    now inversion Hsim.
  - right. split; [lra|].
    destruct height as [|h| |]; try discriminate Hsim.
    exists h. split; [reflexivity|].
    cbn [mbind result_bind to_num] in Hsim.
    destruct (Rlt_dec h 0) as [Hneg|Hpos].
    { rewrite (math_sqrt_neg (2 * h / 9.81)) in Hsim by (clear Hsim Hle; lra).
      discriminate Hsim. }
    assert (Hh : 0 <= h) by (clear Hsim Hle; lra).
    split; [exact Hh|].
    rewrite (math_sqrt_nonneg (2 * h / 9.81)) in Hsim by (clear Hsim Hle Hpos; lra).
    cbn [mbind result_bind] in Hsim.
    rewrite (math_sqrt_nonneg (2 * 9.81 * h)) in Hsim by (clear Hsim Hle Hpos; lra).
    cbn [mbind result_bind to_num] in Hsim.
    destruct initial_velocity as [|v0| |]; try discriminate Hsim.
    cbn [mbind result_bind to_num] in Hsim.
    destruct (spawn_sphere E w (0, 0, h) (0, 0, - v0)) as [w1|];
      [| discriminate Hsim].
    cbn [mbind result_bind engine_call] in Hsim.
    destruct (free_fall_loop E _ w1 t); [| discriminate Hsim].
    cbn [mbind result_bind catch_none] in Hsim.
    now inversion Hsim.
Qed.

(** On an engine whose steps succeed the loop runs to its end. *)
Lemma free_fall_loop_returns (n : nat) (w : world E) (t : R) :
  (forall w, is_Some (stepSimulation E w)) ->
  exists w', free_fall_loop E n w t = Ok w'.
Proof.
  intros Hstep. revert w. induction n as [|n IH]; intros w; simpl.
  - eauto.
  - destruct (Hstep w) as [w' Hw']. rewrite Hw'. simpl.
    destruct (bool_decide (t = 0) && bool_decide (vz (getBasePosition E w') <= radius));
      eauto.
Qed.

Lemma simulate_free_fall_returns (w0 : world E) (t h v0 : R) :
  connect E (time_step self) = Some w0 ->
  (forall w p v, is_Some (spawn_sphere E w p v)) ->
  (forall w, is_Some (stepSimulation E w)) ->
  t > 0 \/ 0 <= h ->
  exists r, simulate_free_fall E self (VNum h) (VNum v0) (VNum t) = Some r.
Proof.
  intros Hconn Hspawn Hstep Hdom. unfold simulate_free_fall. rewrite Hconn.
  cbn [mbind result_bind to_num].
  destruct (Hspawn w0 (0, 0, h) (0, 0, - v0)) as [w1 Hw1].
  destruct (decide (t > 0)) as [Hgt|Hle].
  - cbn [mbind result_bind to_num]. rewrite Hw1. cbn [mbind result_bind engine_call].
    destruct (free_fall_loop_returns (py_int_range (t / time_step self)) w1 t Hstep)
      as [w2 Hw2].
    rewrite Hw2. cbn [mbind result_bind catch_none]. eauto.
  - assert (Hh : 0 <= h) by (destruct Hdom as [Hgt|Hh]; [contradiction | exact Hh]).
    rewrite (math_sqrt_nonneg (2 * h / 9.81)) by (clear Hle Hdom; lra).
    cbn [mbind result_bind].
    rewrite (math_sqrt_nonneg (2 * 9.81 * h)) by (clear Hle Hdom; lra).
    cbn [mbind result_bind to_num]. rewrite Hw1. cbn [mbind result_bind engine_call].
    destruct (free_fall_loop_returns
                (py_int_range (sqrt (2 * h / 9.81) / time_step self)) w1 t Hstep)
      as [w2 Hw2].
    rewrite Hw2. cbn [mbind result_bind catch_none]. eauto.
Qed.

(** C6: whenever the simulator returns a result for a FREE_FALL problem, its
    [distance], [final_velocity] and [time_fall] are those of
    [_solve_free_fall] on the same problem, which did not fail, and they are
    the closed forms: [0.5 * g * t^2], [g * t] and [t] when a time is given,
    [h], [sqrt (2 * g * h)] and [sqrt (2 * h / g)] otherwise. *)
Theorem free_fall_simulation_is_closed_form (problem : PhysicsProblem)
        (r : gmap string value) :
  problem_type problem = FREE_FALL ->
  simulate E self problem = Some r ->
  let ic := initial_conditions problem in
  let d := _solve_free_fall problem in
  d !! "error" = None /\
  r !! "distance" = d !! "distance" /\
  r !! "final_velocity" = d !! "final_velocity" /\
  r !! "time_fall" = d !! "time_fall" /\
  exists t : R,
    dict_get ic "time" (VNum 0) = VNum t /\
    ((t > 0 /\
      r !! "distance" = Some (VNum (0.5 * 9.81 * t * t)) /\
      r !! "final_velocity" = Some (VNum (9.81 * t)) /\
      r !! "time_fall" = Some (VNum t)) \/
     (t <= 0 /\
      exists h : R,
        dict_get ic "height" (VNum 0) = VNum h /\ 0 <= h /\
        r !! "final_velocity" = Some (VNum (sqrt (2 * 9.81 * h))) /\
        r !! "time_fall" = Some (VNum (sqrt (2 * h / 9.81))) /\
        r !! "distance" = Some (VNum h))).
Proof.
  intros Hty Hsim ic d. subst d.
  unfold simulate in Hsim. rewrite Hty in Hsim. fold ic in Hsim.
  apply simulate_free_fall_inv in Hsim.
  destruct Hsim as (t & Ht & [(Hgt & ->) | (Hle & h & Hh & Hpos & ->)]).
  - rewrite (_solve_free_fall_time_based problem t Ht Hgt). cbv zeta.
    repeat (split; [reflexivity|]).
    exists t. split; [exact Ht|]. left.
    split; [exact Hgt|]. repeat split; reflexivity.
  - rewrite (_solve_free_fall_height_based problem t h Ht Hle Hh Hpos). cbv zeta.
    repeat (split; [reflexivity|]).
    exists t. split; [exact Ht|]. right.
    split; [exact Hle|]. exists h. repeat split; first [assumption | reflexivity].
Qed.

End FreeFallSimulation.

Lemma ballistic_step_total (w : world ballistic_engine) :
  is_Some (stepSimulation ballistic_engine w).
Proof. simpl. eauto. Qed.

Lemma free_fall_simulation_is_closed_form_witness :
  let problem := free_fall_problem [("height", VNum 15)] in
  exists r : gmap string value,
    simulate ballistic_engine SimulationEngine_init problem = Some r /\
    r !! "final_velocity" = _solve_free_fall problem !! "final_velocity" /\
    r !! "final_velocity" = Some (VNum (sqrt (2 * 9.81 * 15))).
Proof.
  intros problem.
  destruct (simulate_free_fall_returns ballistic_engine SimulationEngine_init
              {| bw_dt := 1 / 240; bw_pos := (0, 0, 0); bw_vel := (0, 0, 0) |} 0 15 0)
    as [r Hr]; [reflexivity | simpl; eauto | exact ballistic_step_total | lra |].
  assert (Hsim : simulate ballistic_engine SimulationEngine_init problem = Some r) by exact Hr.
  exists r. split; [exact Hsim|].
  destruct (free_fall_simulation_is_closed_form ballistic_engine SimulationEngine_init problem r
              eq_refl Hsim)
    as (_ & _ & Hfv & _ & t & Ht & [(Hgt & _) | (_ & h & Hh & _ & Hv & _)]).
  - assert (t = 0) by (change (VNum 0 = VNum t) in Ht; congruence). lra.
  - split; [exact Hfv|].
    assert (h = 15) by (change (VNum 15 = VNum h) in Hh; congruence).
    subst h. exact Hv.
Defined.

(** ** The projectile simulator *)


Lemma in_flight_S (E : Engine) (w w' : world E) (j : nat) :
  stepSimulation E w = Some w' -> in_flight E w' j -> in_flight E w (S j).
Proof.
  intros Hw (w'' & Hrun & Hup). exists w''. simpl. rewrite Hw. now split.
Qed.

Lemma landed_S (E : Engine) (w w' : world E) (j : nat) :
  stepSimulation E w = Some w' -> landed E w' j -> landed E w (S j).
Proof.
  intros Hw (w'' & Hrun & Hdown). exists w''. simpl. rewrite Hw. now split.
Qed.

Section ProjectileSimulation.
Context (E : Engine) (self : SimulationEngine).
Hypothesis step_total : forall w, is_Some (stepSimulation E w).

(** The loop stops at the first step [k] at which the body has landed, or
    after all [n] steps. *)
Lemma projectile_loop_spec (n : nat) (w : world E) (st : projectile_state) :
  exists (k : nat) (st' : projectile_state),
    projectile_loop E self n w st = Ok st' /\
    (k <= n)%nat /\
    ps_time_flight st' = ps_time_flight st + INR k * time_step self /\
    length (ps_positions st') = (length (ps_positions st) + k)%nat /\
    (forall j, (1 <= j < k)%nat -> in_flight E w j) /\
    (((1 <= k)%nat /\ landed E w k) \/
     (k = n /\ forall j, (1 <= j <= n)%nat -> in_flight E w j)).
Proof.
  revert w st. induction n as [|n IH]; intros w st.
  - exists 0%nat, st. simpl. split; [reflexivity|]. split; [lia|].
    split; [lra|]. split; [lia|]. split; [intros j Hj; lia|].
    right. split; [reflexivity | intros j Hj; lia].
  - destruct (step_total w) as [w' Hw']. simpl. rewrite Hw'.
    cbn [mbind result_bind engine_call].
    destruct (decide (vz (getBasePosition E w') <= radius)) as [Hdown|Hup].
    + exists 1%nat. eexists. split; [reflexivity|]. simpl.
      split; [lia|]. split; [lra|].
      split; [rewrite length_app; simpl; lia|].
      split; [intros j Hj; lia|].
      left. split; [lia|]. exists w'. simpl. rewrite Hw'. now split.
    + match goal with
      | |- context [projectile_loop E self n w' ?s] =>
          destruct (IH w' s) as (k & st' & Hloop & Hk & Htf & Hlen & Hbefore & Hend)
      end.
      exists (S k), st'. split; [exact Hloop|]. split; [lia|].
      simpl in Htf, Hlen. rewrite length_app in Hlen. simpl in Hlen.
      split; [rewrite Htf, S_INR; lra|].
      split; [lia|].
      assert (Hfirst : in_flight E w 1).
      { exists w'. simpl. rewrite Hw'. split; [reflexivity | lra]. }
      split.
      * intros [|j] Hj; [lia|].
        destruct j as [|j]; [exact Hfirst|].
        apply (in_flight_S E w w'); [exact Hw'|]. apply Hbefore. lia.
      * destruct Hend as [(Hk1 & Hland) | (-> & Hall)].
        -- left. split; [lia|]. now apply (landed_S E w w').
        -- right. split; [reflexivity|].
           intros [|j] Hj; [lia|].
           destruct j as [|j]; [exact Hfirst|].
           apply (in_flight_S E w w'); [exact Hw'|]. apply Hall. lia.
Qed.

(** [simulate_projectile] for any step budget of at least one step. *)
Lemma simulate_projectile_budget (w0 w1 : world E) (v0 angle h : R) :
  (1 <= max_steps self)%nat ->
  connect E (time_step self) = Some w0 ->
  spawn_sphere E w0 (0, 0, h + radius)
               (v0 * cos (math_radians angle), 0, v0 * sin (math_radians angle))
  = Some w1 ->
  exists (k : nat) (r : gmap string value) (range_x max_height : R),
    simulate_projectile E self (VNum v0) (VNum angle) (VNum h) = Some r /\
    (1 <= k <= max_steps self)%nat /\
    r !! "range" = Some (VNum range_x) /\
    r !! "max_height" = Some (VNum max_height) /\
    r !! "time_flight" = Some (VNum (INR k * time_step self)) /\
    (forall j, (1 <= j < k)%nat -> in_flight E w1 j) /\
    (landed E w1 k \/ (k = max_steps self /\ in_flight E w1 (max_steps self))).
Proof.
  intros Hmax Hconn Hspawn.
  unfold simulate_projectile. rewrite Hconn.
  cbn [mbind result_bind to_num]. rewrite Hspawn.
  cbn [mbind result_bind engine_call].
  match goal with
  | |- context [projectile_loop E self (max_steps self) w1 ?s] =>
      destruct (projectile_loop_spec (max_steps self) w1 s)
        as (k & st' & Hloop & Hk & Htf & Hlen & Hbefore & Hend)
  end.
  rewrite Hloop. cbn [mbind result_bind].
  assert (Hk1 : (1 <= k)%nat) by (destruct Hend as [(H1 & _) | (-> & _)]; lia).
  simpl in Hlen, Htf.
  destruct (ps_positions st') as [|p ps] eqn:Hpos; [simpl in Hlen; lia|].
  cbn [catch_none].
  exists k. do 3 eexists. split; [reflexivity|]. split; [lia|].
  split; [reflexivity|]. split; [reflexivity|].
  split.
  { replace (INR k * time_step self) with (ps_time_flight st') by (rewrite Htf; lra).
    reflexivity. }
  split; [exact Hbefore|].
  destruct Hend as [(_ & Hland) | (Heq & Hall)].
  - left. exact Hland.
  - right. split; [exact Heq|]. apply Hall. lia.
Qed.

End ProjectileSimulation.

Lemma max_steps_init_pos : (1 <= max_steps SimulationEngine_init)%nat.
Proof. simpl. lia. Qed.



(** ** The reference engine over a long fall *)




(** * Further properties of the solver *)

(** ** The pendulum solver *)

Lemma _solve_pendulum_nonpositive (len : R) (initial_angle : value) :
  len <= 0 ->
  _solve_pendulum (VNum len) initial_angle
  = Raise (ValueError "Pendulum length must be a positive value.").
Proof.
  intros Hlen. unfold _solve_pendulum. cbn [mbind result_bind to_num].
  destruct (decide (len <= 0)) as [_|Hpos]; [reflexivity | lra].
Qed.

(** X1: a PENDULUM problem whose length is at most 0, or is missing (the
    default is 0), is refused: [solve_problem] raises the [ValueError] of
    [_solve_pendulum], whatever the angle and the quantity asked. *)
Theorem pendulum_rejects_nonpositive_length (problem : PhysicsProblem) (len : R) :
  problem_type problem = PENDULUM ->
  dict_get (initial_conditions problem) "length" (VNum 0) = VNum len ->
  len <= 0 ->
  solve_problem problem = Raise (ValueError "Pendulum length must be a positive value.").
Proof.
  intros Hty Hlen Hle. unfold solve_problem. rewrite Hty, Hlen.
  now rewrite (_solve_pendulum_nonpositive len _ Hle).
Qed.

Lemma pendulum_rejects_nonpositive_length_witness :
  solve_problem (pendulum_problem [("initial_angle", VNum 30)])
  = Raise (ValueError "Pendulum length must be a positive value.").
Proof.
  apply (pendulum_rejects_nonpositive_length
           (pendulum_problem [("initial_angle", VNum 30)]) 0);
    first [reflexivity | lra].
Defined.

Lemma _solve_pendulum_positive (len ang : R) :
  0 < len ->
  _solve_pendulum (VNum len) (VNum ang)
  = Ok (dict_of [
      ("period", VNum (2 * PI * sqrt (len / GRAVITY)));
      ("max_velocity",
       VNum (sqrt (2 * GRAVITY * (len * (1 - cos (math_radians ang))))));
      ("frequency", VNum (1 / (2 * PI * sqrt (len / GRAVITY))));
      ("length", VNum len);
      ("initial_angle", VNum ang)]) /\
  0 < 2 * PI * sqrt (len / GRAVITY).
Proof.
  intros Hlen.
  assert (Hg : GRAVITY = 981 / 100) by apply GRAVITY_fraction.
  assert (Hq : 0 < len / GRAVITY).
  { rewrite Hg. apply Rdiv_lt_0_compat; lra. }
  assert (Hroot : 0 < sqrt (len / GRAVITY)) by now apply sqrt_lt_R0.
  assert (Hperiod : 0 < 2 * PI * sqrt (len / GRAVITY)).
  { apply Rmult_lt_0_compat; [| exact Hroot].
    apply Rmult_lt_0_compat; [lra | apply PI_RGT_0]. }
  split; [| exact Hperiod].
  unfold _solve_pendulum. cbn [mbind result_bind to_num].
  destruct (decide (len <= 0)) as [Hle|_]; [lra|].
  rewrite (math_sqrt_nonneg (len / GRAVITY)) by lra.
  cbn [mbind result_bind].
  assert (Hh : 0 <= 2 * GRAVITY * (len * (1 - cos (math_radians ang)))).
  { rewrite Hg. pose proof (COS_bound (math_radians ang)) as [_ Hc].
    apply Rmult_le_pos; [lra|]. apply Rmult_le_pos; lra. }
  rewrite (math_sqrt_nonneg _ Hh). cbn [mbind result_bind].
  destruct (decide (2 * PI * sqrt (len / GRAVITY) > 0)) as [_|Hn]; [reflexivity | lra].
Qed.

(** X2: for a PENDULUM problem with a positive length and a numeric angle
    the solver does not fail.  Its answer is the small-angle period
    [2 * pi * sqrt (L / g)] in seconds, unless the quantity asked is
    ['max_velocity'], when it is [sqrt (2 * g * L * (1 - cos theta))] in m/s;
    the period is positive and the reported frequency is its inverse. *)
Theorem pendulum_solution (problem : PhysicsProblem) (len ang : R) :
  problem_type problem = PENDULUM ->
  dict_get (initial_conditions problem) "length" (VNum 0) = VNum len ->
  dict_get (initial_conditions problem) "initial_angle" (VNum 30) = VNum ang ->
  0 < len ->
  let period := 2 * PI * sqrt (len / GRAVITY) in
  let asks_velocity :=
    py_eq_str (dict_get (initial_conditions problem) "quantity_asked" (VStr "period"))
              "max_velocity" in
  exists (sol : Solution.t) (d : gmap string value) (frequency : R),
    solve_problem problem = Ok sol /\
    Solution.answer sol
    = (if asks_velocity
       then VNum (sqrt (2 * GRAVITY * (len * (1 - cos (math_radians ang)))))
       else VNum period) /\
    Solution.unit sol = (if asks_velocity then VStr "m/s" else VStr "s") /\
    Solution.visualization_data sol = Some d /\
    d !! "frequency" = Some (VNum frequency) /\
    0 < period /\ frequency * period = 1.
Proof.
  intros Hty Hlen Hang Hpos period asks_velocity.
  destruct (_solve_pendulum_positive len ang Hpos) as [Hd Hperiod].
  unfold solve_problem. rewrite Hty, Hlen, Hang, Hd.
  cbn [mbind result_bind].
  match goal with
  | |- context [dict_truthy ?d] => replace (dict_truthy d) with true by reflexivity
  end.
  fold asks_velocity. cbv iota.
  destruct asks_velocity.
  - rewrite (set_answer_ok _ "max_velocity" "m/s"
               (VNum (sqrt (2 * GRAVITY * (len * (1 - cos (math_radians ang)))))))
      by reflexivity.
    cbn [fmap result_fmap mbind result_bind].
    rewrite (lookup_dict_truthy _ "unit" (VStr "m/s")) by apply lookup_insert_eq.
    unfold dict_item.
    rewrite (lookup_insert_ne _ "unit" "answer") by (intros ?; discriminate).
    rewrite !lookup_insert_eq. cbn [mbind result_bind].
    do 3 eexists. split; [reflexivity|].
    cbn [Solution.answer Solution.unit Solution.visualization_data].
    split; [reflexivity|]. split; [reflexivity|]. split; [reflexivity|].
    split; [reflexivity|]. split; [exact Hperiod|].
    unfold period, Rdiv. rewrite Rmult_1_l. apply Rinv_l. lra.
  - rewrite (set_answer_ok _ "period" "s" (VNum (2 * PI * sqrt (len / GRAVITY))))
      by reflexivity.
    cbn [fmap result_fmap mbind result_bind].
    rewrite (lookup_dict_truthy _ "unit" (VStr "s")) by apply lookup_insert_eq.
    unfold dict_item.
    rewrite (lookup_insert_ne _ "unit" "answer") by (intros ?; discriminate).
    rewrite !lookup_insert_eq. cbn [mbind result_bind].
    do 3 eexists. split; [reflexivity|].
    cbn [Solution.answer Solution.unit Solution.visualization_data].
    split; [reflexivity|]. split; [reflexivity|]. split; [reflexivity|].
    split; [reflexivity|]. split; [exact Hperiod|].
    unfold period, Rdiv. rewrite Rmult_1_l. apply Rinv_l. lra.
Qed.

Lemma pendulum_solution_witness :
  exists sol : Solution.t,
    solve_problem (pendulum_problem [("length", VNum 1)]) = Ok sol /\
    Solution.answer sol = VNum (2 * PI * sqrt (1 / GRAVITY)) /\
    Solution.unit sol = VStr "s".
Proof.
  destruct (pendulum_solution (pendulum_problem [("length", VNum 1)]) 1 30)
    as (sol & d & f & Hsol & Hans & Hunit & _); first [reflexivity | lra | idtac].
  exists sol. split; [exact Hsol|]. split; [exact Hans | exact Hunit].
Defined.

(** ** The collision solver *)

(** X3: a COLLISION problem in which one of the first two masses is at most
    0 is refused: [solve_problem] raises the [ValueError] of
    [_solve_collision], provided the two velocities can be read (a bare value,
    or a non-empty list). *)
Theorem collision_rejects_nonpositive_mass (problem : PhysicsProblem)
        (a b : PhysicsObject) (rest : list PhysicsObject) (va vb : value) :
  problem_type problem = COLLISION ->
  objects problem = a :: b :: rest ->
  first_if_list (velocity a) = Ok va ->
  first_if_list (velocity b) = Ok vb ->
  mass a <= 0 \/ mass b <= 0 ->
  solve_problem problem
  = Raise (ValueError "Error in collision calculation: Mass must be greater than zero").
Proof.
  intros Hty Hobj Hva Hvb Hmass.
  unfold solve_problem. rewrite Hty, Hobj.
  unfold _solve_collision, _solve_collision_body. rewrite Hva, Hvb.
  cbn [mbind result_bind].
  assert (Hguard : bool_decide (mass a <= 0) || bool_decide (mass b <= 0) = true).
  { apply orb_true_iff.
    destruct Hmass as [H|H]; [left | right]; now apply bool_decide_eq_true_2. }
  rewrite Hguard. reflexivity.
Qed.

Lemma collision_rejects_nonpositive_mass_witness :
  solve_problem (collision_problem [ball "Ball A" 0 5; ball "Ball B" 1 0])
  = Raise (ValueError "Error in collision calculation: Mass must be greater than zero").
Proof.
  apply (collision_rejects_nonpositive_mass
           (collision_problem [ball "Ball A" 0 5; ball "Ball B" 1 0])
           (ball "Ball A" 0 5) (ball "Ball B" 1 0) [] (VNum 5) (VNum 0));
    first [reflexivity | left; simpl; lra].
Defined.

(** X4: the final velocities that the solver returns for two positive
    masses conserve kinetic energy, and the relative velocity is reversed:
    [mA * vA^2 + mB * vB^2 = mA * vA'^2 + mB * vB'^2] and
    [vB' - vA' = vA - vB]. *)
Theorem collision_conserves_energy (problem : PhysicsProblem) (a b : PhysicsObject)
        (rest : list PhysicsObject) (va vb : R) :
  problem_type problem = COLLISION ->
  objects problem = a :: b :: rest ->
  0 < mass a -> 0 < mass b ->
  first_if_list (velocity a) = Ok (VNum va) ->
  first_if_list (velocity b) = Ok (VNum vb) ->
  exists (sol : Solution.t) (va' vb' : R),
    solve_problem problem = Ok sol /\
    Solution.answer sol = VList [VNum va'; VNum vb'] /\
    mass a * va ^ 2 + mass b * vb ^ 2 = mass a * va' ^ 2 + mass b * vb' ^ 2 /\
    vb' - va' = va - vb.
Proof.
  intros Hty Hobj Ha Hb Hva Hvb.
  destruct (solve_problem_collision _ _ _ _ _ _ Hty Hobj Ha Hb Hva Hvb)
    as (sol & Hsol & Hans).
  exists sol. do 2 eexists. split; [exact Hsol|]. split; [exact Hans|].
  split; field; lra.
Qed.

Lemma collision_conserves_energy_witness :
  exists (sol : Solution.t) (va' vb' : R),
    solve_problem (collision_problem [ball "Ball A" 2 3; ball "Ball B" 1 0]) = Ok sol /\
    Solution.answer sol = VList [VNum va'; VNum vb'] /\
    2 * 3 ^ 2 + 1 * 0 ^ 2 = 2 * va' ^ 2 + 1 * vb' ^ 2 /\
    vb' - va' = 3 - 0.
Proof.
  apply (collision_conserves_energy
           (collision_problem [ball "Ball A" 2 3; ball "Ball B" 1 0])
           (ball "Ball A" 2 3) (ball "Ball B" 1 0) [] 3 0);
    simpl; first [reflexivity | lra].
Defined.

(** X5: [solve_problem] has nothing to return, and raises
    [ValueError "Could not solve problem"], for a COLLISION problem with
    fewer than two objects and for every problem type outside the four
    families. *)
Theorem solve_problem_nothing_to_solve (problem : PhysicsProblem) :
  (problem_type problem = COLLISION /\ (length (objects problem) < 2)%nat) \/
  (problem_type problem <> PROJECTILE /\ problem_type problem <> FREE_FALL /\
   problem_type problem <> PENDULUM /\ problem_type problem <> COLLISION) ->
  solve_problem problem = Raise (ValueError "Could not solve problem").
Proof.
  intros [[Hty Hlen] | (Hp & Hf & Hpe & Hc)]; unfold solve_problem.
  - rewrite Hty. destruct (objects problem) as [|a [|b rest]]; simpl in Hlen;
      [reflexivity | reflexivity | lia].
  - destruct (problem_type problem); try reflexivity; congruence.
Qed.

Lemma solve_problem_nothing_to_solve_witness :
  solve_problem (collision_problem [ball "Ball A" 1 5])
  = Raise (ValueError "Could not solve problem") /\
  solve_problem spring_problem = Raise (ValueError "Could not solve problem").
Proof.
  split; apply solve_problem_nothing_to_solve.
  - left. split; [reflexivity | simpl; lia].
  - right. repeat split; discriminate.
Defined.

(** ** The projectile solver on an arbitrary launch *)

(** Both roots of the quadratic satisfy the height equation. *)
Lemma projectile_root (v0y h r t : R) :
  r * r = v0y ^ 2 + 2 * GRAVITY * h ->
  t = (v0y + r) / GRAVITY \/ t = (v0y - r) / GRAVITY ->
  h + v0y * t - 0.5 * GRAVITY * t ^ 2 = 0.
Proof.
  intros Hr Ht. rewrite GRAVITY_fraction in *. rewrite half_fraction.
  assert (Hh : h = (r * r - v0y ^ 2) / (2 * (981 / 100))) by (rewrite Hr; field).
  destruct Ht as [-> | ->]; rewrite Hh; field.
Qed.

(** What [_solve_projectile_motion] computes when the discriminant is not
    negative. *)
Lemma _solve_projectile_motion_real (v0 angle h : R) :
  let v0x := v0 * cos (math_radians angle) in
  let v0y := v0 * sin (math_radians angle) in
  let r := sqrt (v0y ^ 2 + 2 * GRAVITY * h) in
  let d := _solve_projectile_motion (VNum v0) (VNum angle) (VNum h) in
  0 <= v0y ^ 2 + 2 * GRAVITY * h ->
  exists t : R,
    (t = (v0y + r) / GRAVITY \/ t = (v0y - r) / GRAVITY) /\
    (0 <= (v0y + r) / GRAVITY -> t = (v0y + r) / GRAVITY) /\
    d !! "time_flight" = Some (VNum t) /\
    d !! "range" = Some (VNum (v0x * t)) /\
    d !! "max_height"
    = Some (VNum (h + v0y * (v0y / GRAVITY) - 0.5 * GRAVITY * (v0y / GRAVITY) ^ 2)) /\
    d !! "final_velocity" = Some (VNum (sqrt (v0x ^ 2 + (v0y - GRAVITY * t) ^ 2))) /\
    d !! "error" = None.
Proof.
  intros v0x v0y r d Hdisc. subst d.
  assert (Hg := GRAVITY_fraction). assert (Hhalf := half_fraction).
  unfold _solve_projectile_motion. cbn [mbind result_bind to_num].
  fold v0x v0y.
  assert (Hd : (- v0y) ^ 2 - 4 * (0.5 * GRAVITY) * - h = v0y ^ 2 + 2 * GRAVITY * h)
    by (rewrite Hg, Hhalf; field).
  rewrite Hd.
  destruct (decide (v0y ^ 2 + 2 * GRAVITY * h < 0)) as [Hneg|_]; [lra|].
  rewrite (math_sqrt_nonneg _ Hdisc). cbn [mbind result_bind]. fold r.
  assert (H1 : (- - v0y + r) / (2 * (0.5 * GRAVITY)) = (v0y + r) / GRAVITY)
    by (rewrite Hg, Hhalf; field).
  assert (H2 : (- - v0y - r) / (2 * (0.5 * GRAVITY)) = (v0y - r) / GRAVITY)
    by (rewrite Hg, Hhalf; field).
  rewrite H1, H2.
  set (t := if decide ((v0y + r) / GRAVITY < 0)
            then (v0y - r) / GRAVITY else (v0y + r) / GRAVITY).
  rewrite math_sqrt_nonneg by (apply Rplus_le_le_0_compat; apply pow2_ge_0).
  cbn [mbind result_bind catch_error_dict].
  exists t. split; [| split].
  - unfold t. destruct (decide ((v0y + r) / GRAVITY < 0)); [right | left]; reflexivity.
  - intros Hpos. unfold t.
    destruct (decide ((v0y + r) / GRAVITY < 0)) as [Hneg|_]; [lra | reflexivity].
  - repeat split; reflexivity.
Qed.

(** X6: launched from a height [h >= 0], the solver's time of flight is not
    negative and is a root of the height equation:
    [h + v0y * t - 0.5 * g * t^2 = 0], with [v0y = v0 * sin theta]; the range
    is [v0 * cos theta * t]. *)
Theorem projectile_time_of_flight_is_root (v0 angle h : R) :
  0 <= h ->
  let v0x := v0 * cos (math_radians angle) in
  let v0y := v0 * sin (math_radians angle) in
  let d := _solve_projectile_motion (VNum v0) (VNum angle) (VNum h) in
  exists t : R,
    d !! "time_flight" = Some (VNum t) /\
    d !! "range" = Some (VNum (v0x * t)) /\
    0 <= t /\
    h + v0y * t - 0.5 * GRAVITY * t ^ 2 = 0.
Proof.
  intros Hh v0x v0y d.
  assert (Hg := GRAVITY_fraction).
  assert (Hsq : 0 <= v0y ^ 2) by apply pow2_ge_0.
  assert (Hdisc : 0 <= v0y ^ 2 + 2 * GRAVITY * h) by (rewrite Hg; lra).
  destruct (_solve_projectile_motion_real v0 angle h Hdisc)
    as (t & Hroots & Hfirst & Htf & Hrange & _).
  fold v0y in Hroots, Hfirst. fold v0x in Hrange.
  set (r := sqrt (v0y ^ 2 + 2 * GRAVITY * h)) in *.
  assert (Hr0 : 0 <= r) by apply sqrt_pos.
  assert (Hrr : r * r = v0y ^ 2 + 2 * GRAVITY * h) by now apply sqrt_sqrt.
  assert (Hsum : 0 <= v0y + r).
  { destruct (Rle_dec 0 (v0y + r)) as [H|H]; [exact H|]. exfalso.
    rewrite Hg in Hrr. nra. }
  assert (Ht1 : 0 <= (v0y + r) / GRAVITY).
  { rewrite Hg. apply Rmult_le_pos; [exact Hsum|].
    left. apply Rinv_0_lt_compat. lra. }
  exists t. split; [exact Htf|]. split; [exact Hrange|].
  split; [rewrite (Hfirst Ht1); exact Ht1|].
  now apply (projectile_root v0y h r t).
Qed.

Lemma projectile_time_of_flight_is_root_witness :
  let v0y := 20 * sin (math_radians 45) in
  let d := _solve_projectile_motion (VNum 20) (VNum 45) (VNum 10) in
  exists t : R,
    d !! "time_flight" = Some (VNum t) /\
    0 <= t /\ 10 + v0y * t - 0.5 * GRAVITY * t ^ 2 = 0.
Proof.
  intros v0y d.
  destruct (projectile_time_of_flight_is_root 20 45 10) as (t & Htf & _ & Ht & Hroot);
    [lra|].
  exists t. split; [exact Htf|]. split; [exact Ht | exact Hroot].
Defined.

(** X7: whenever the discriminant [v0y^2 + 2 * g * h] is not negative, the
    reported final speed satisfies the energy balance
    [final_velocity^2 = v0^2 + 2 * g * h], and the reported maximum height is
    [h + v0y^2 / (2 * g)], at least the launch height. *)
Theorem projectile_energy_balance (v0 angle h : R) :
  let v0y := v0 * sin (math_radians angle) in
  let d := _solve_projectile_motion (VNum v0) (VNum angle) (VNum h) in
  0 <= v0y ^ 2 + 2 * GRAVITY * h ->
  exists final_velocity max_height : R,
    d !! "final_velocity" = Some (VNum final_velocity) /\
    0 <= final_velocity /\
    final_velocity ^ 2 = v0 ^ 2 + 2 * GRAVITY * h /\
    d !! "max_height" = Some (VNum max_height) /\
    max_height = h + v0y ^ 2 / (2 * GRAVITY) /\
    h <= max_height.
Proof.
  intros v0y d Hdisc.
  assert (Hg := GRAVITY_fraction). assert (Hhalf := half_fraction).
  destruct (_solve_projectile_motion_real v0 angle h Hdisc)
    as (t & Hroots & _ & _ & _ & Hmax & Hfv & _).
  fold v0y in Hroots, Hmax, Hfv.
  set (v0x := v0 * cos (math_radians angle)) in *.
  set (r := sqrt (v0y ^ 2 + 2 * GRAVITY * h)) in *.
  assert (Hrr : r * r = v0y ^ 2 + 2 * GRAVITY * h) by now apply sqrt_sqrt.
  pose proof (projectile_root v0y h r t Hrr Hroots) as Hroot.
  assert (Htrig : v0x ^ 2 + v0y ^ 2 = v0 ^ 2).
  { unfold v0x, v0y.
    pose proof (sin2_cos2 (math_radians angle)) as Hsc. unfold Rsqr in Hsc.
    replace (v0 ^ 2) with (v0 ^ 2 * (sin (math_radians angle) * sin (math_radians angle)
                                  + cos (math_radians angle) * cos (math_radians angle)))
      by (rewrite Hsc; ring).
    ring. }
  assert (Hsum : v0x ^ 2 + (v0y - GRAVITY * t) ^ 2 = v0 ^ 2 + 2 * GRAVITY * h).
  { rewrite <- Htrig. rewrite Hhalf in Hroot.
    replace ((v0y - GRAVITY * t) ^ 2)
      with (v0y ^ 2 + 2 * GRAVITY * (h - (h + v0y * t - 1 / 2 * GRAVITY * t ^ 2)))
      by field.
    rewrite Hroot. ring. }
  assert (Hnonneg : 0 <= v0x ^ 2 + (v0y - GRAVITY * t) ^ 2)
    by (apply Rplus_le_le_0_compat; apply pow2_ge_0).
  do 2 eexists. split; [exact Hfv|]. split; [apply sqrt_pos|].
  split.
  { rewrite <- Hsum. now apply pow2_sqrt. }
  split; [exact Hmax|].
  assert (Hmh : h + v0y * (v0y / GRAVITY) - 0.5 * GRAVITY * (v0y / GRAVITY) ^ 2
                = h + v0y ^ 2 / (2 * GRAVITY)) by (rewrite Hg, Hhalf; field).
  split; [exact Hmh|].
  rewrite Hmh, Hg.
  assert (0 <= v0y ^ 2 / (2 * (981 / 100))); [| lra].
  apply Rmult_le_pos; [apply pow2_ge_0|]. left. apply Rinv_0_lt_compat. lra.
Qed.

Lemma projectile_energy_balance_witness :
  let d := _solve_projectile_motion (VNum 20) (VNum 45) (VNum 0) in
  exists final_velocity : R,
    d !! "final_velocity" = Some (VNum final_velocity) /\
    final_velocity ^ 2 = 20 ^ 2 + 2 * GRAVITY * 0.
Proof.
  intros d.
  destruct (projectile_energy_balance 20 45 0) as (fv & mh & Hfv & _ & Hsq & _).
  - rewrite GRAVITY_fraction.
    pose proof (pow2_ge_0 (20 * sin (math_radians 45))). lra.
  - exists fv. split; [exact Hfv | exact Hsq].
Defined.

(** X8: when the discriminant [v0y^2 + 2 * g * h] is negative (a launch from
    below the ground that does not reach it), [_solve_projectile_motion]
    returns only [{'error': 'No real solution for time of flight'}], and
    [solve_problem], which reads the result without looking for that key,
    raises instead of returning a solution. *)
Theorem projectile_without_real_root (problem : PhysicsProblem) (v0 angle h : R) :
  problem_type problem = PROJECTILE ->
  dict_get (initial_conditions problem) "initial_velocity" (VNum 0) = VNum v0 ->
  dict_get (initial_conditions problem) "angle" (VNum 0) = VNum angle ->
  dict_get (initial_conditions problem) "height" (VNum 0) = VNum h ->
  (v0 * sin (math_radians angle)) ^ 2 + 2 * GRAVITY * h < 0 ->
  _solve_projectile_motion (VNum v0) (VNum angle) (VNum h)
  = error_dict (ValueError "No real solution for time of flight") /\
  exists e : exn, solve_problem problem = Raise e.
Proof.
  intros Hty Hv0 Hang Hh Hneg.
  assert (Hg := GRAVITY_fraction). assert (Hhalf := half_fraction).
  assert (Hd : _solve_projectile_motion (VNum v0) (VNum angle) (VNum h)
               = error_dict (ValueError "No real solution for time of flight")).
  { unfold _solve_projectile_motion. cbn [mbind result_bind to_num].
    set (v0y := v0 * sin (math_radians angle)) in *.
    assert (Hdisc : (- v0y) ^ 2 - 4 * (0.5 * GRAVITY) * - h
                    = v0y ^ 2 + 2 * GRAVITY * h) by (rewrite Hg, Hhalf; field).
    rewrite Hdisc.
    destruct (decide (v0y ^ 2 + 2 * GRAVITY * h < 0)) as [_|Hpos]; [reflexivity | lra]. }
  split; [exact Hd|].
  unfold solve_problem. rewrite Hty, Hv0, Hang, Hh, Hd.
  replace (dict_truthy (error_dict (ValueError "No real solution for time of flight")))
    with true by reflexivity.
  repeat match goal with
         | |- context [if py_eq_str ?v ?s then _ else _] => destruct (py_eq_str v s)
         end;
    rewrite set_answer_error_dict by discriminate; simpl; eauto.
Qed.

Lemma projectile_without_real_root_witness :
  exists e : exn,
    solve_problem (projectile_problem [("initial_velocity", VNum 0);
                                       ("angle", VNum 0);
                                       ("height", VNum (-5))]) = Raise e.
Proof.
  apply (projectile_without_real_root
           (projectile_problem [("initial_velocity", VNum 0);
                                ("angle", VNum 0);
                                ("height", VNum (-5))]) 0 0 (-5));
    try reflexivity.
  rewrite GRAVITY_fraction. lra.
Defined.

(** ** The free-fall solver *)

(** X9: for a FREE_FALL problem without a time, with height [h >= 0], that
    asks for ['time_fall'], [solve_problem] answers the fall time
    [sqrt (2 * h / g)] in seconds: it replaces the answer that
    [_solve_free_fall] itself had put in its result, which is the height in
    metres. *)
Theorem free_fall_time_answer (problem : PhysicsProblem) (t h : R) :
  problem_type problem = FREE_FALL ->
  dict_get (initial_conditions problem) "time" (VNum 0) = VNum t -> t <= 0 ->
  dict_get (initial_conditions problem) "height" (VNum 0) = VNum h -> 0 <= h ->
  dict_get (initial_conditions problem) "quantity_asked" (VStr "final_velocity")
  = VStr "time_fall" ->
  _solve_free_fall problem !! "answer" = Some (VNum h) /\
  _solve_free_fall problem !! "unit" = Some (VStr "m") /\
  exists sol : Solution.t,
    solve_problem problem = Ok sol /\
    Solution.answer sol = VNum (sqrt (2 * h / 9.81)) /\
    Solution.unit sol = VStr "s".
Proof.
  intros Hty Ht Hle Hh Hpos Hq.
  pose proof (_solve_free_fall_height_based problem t h Ht Hle Hh Hpos) as Hd.
  cbv zeta in Hd. rewrite Hq in Hd.
  replace (py_eq_str (VStr "time_fall") "final_velocity") with false in Hd
    by reflexivity.
  rewrite Hd. split; [reflexivity|]. split; [reflexivity|].
  unfold solve_problem. rewrite Hty, Hd, Hq.
  match goal with
  | |- context [dict_truthy ?d] => replace (dict_truthy d) with true by reflexivity
  end.
  replace (py_eq_str (VStr "time_fall") "final_velocity") with false by reflexivity.
  replace (py_eq_str (VStr "time_fall") "distance") with false by reflexivity.
  replace (py_eq_str (VStr "time_fall") "time_fall") with true by reflexivity.
  cbv iota.
  rewrite (set_answer_ok _ "time_fall" "s" (VNum (sqrt (2 * h / 9.81))))
    by reflexivity.
  cbn [fmap result_fmap mbind result_bind].
  rewrite (lookup_dict_truthy _ "unit" (VStr "s")) by apply lookup_insert_eq.
  unfold dict_item.
  rewrite (lookup_insert_ne _ "unit" "answer") by (intros ?; discriminate).
  rewrite !lookup_insert_eq. cbn [mbind result_bind].
  eexists. split; [reflexivity|]. split; reflexivity.
Qed.

Lemma free_fall_time_answer_witness :
  exists sol : Solution.t,
    solve_problem (free_fall_problem [("height", VNum 15);
                                      ("quantity_asked", VStr "time_fall")]) = Ok sol /\
    Solution.answer sol = VNum (sqrt (2 * 15 / 9.81)) /\
    Solution.unit sol = VStr "s".
Proof.
  destruct (free_fall_time_answer
              (free_fall_problem [("height", VNum 15);
                                  ("quantity_asked", VStr "time_fall")]) 0 15)
    as (_ & _ & Hsol); first [reflexivity | lra | exact Hsol].
Defined.

(** X10: the three quantities that [_solve_free_fall] reports are
    consistent with one another in both modes (a positive time, or no time
    and a height [h >= 0]): [final_velocity = g * time_fall],
    [distance = 0.5 * g * time_fall^2] and
    [final_velocity^2 = 2 * g * distance]. *)
Theorem free_fall_quantities_consistent (problem : PhysicsProblem) (t h : R) :
  dict_get (initial_conditions problem) "time" (VNum 0) = VNum t ->
  t > 0 \/
  (t <= 0 /\ dict_get (initial_conditions problem) "height" (VNum 0) = VNum h /\ 0 <= h) ->
  exists distance final_velocity time_fall : R,
    _solve_free_fall problem !! "distance" = Some (VNum distance) /\
    _solve_free_fall problem !! "final_velocity" = Some (VNum final_velocity) /\
    _solve_free_fall problem !! "time_fall" = Some (VNum time_fall) /\
    final_velocity = 9.81 * time_fall /\
    distance = 0.5 * 9.81 * time_fall ^ 2 /\
    final_velocity ^ 2 = 2 * 9.81 * distance.
Proof.
  intros Ht [Hgt | (Hle & Hh & Hpos)].
  - rewrite (_solve_free_fall_time_based problem t Ht Hgt). cbv zeta.
    exists (0.5 * 9.81 * t * t), (9.81 * t), t.
    repeat split; try reflexivity; lra.
  - rewrite (_solve_free_fall_height_based problem t h Ht Hle Hh Hpos). cbv zeta.
    exists h, (sqrt (2 * 9.81 * h)), (sqrt (2 * h / 9.81)).
    do 3 (split; [reflexivity|]).
    assert (Hq : 0 <= 2 * h / 9.81) by (clear Hle; lra).
    assert (Hp : 0 <= 2 * 9.81 * h) by (clear Hle; lra).
    assert (Htf : sqrt (2 * h / 9.81) ^ 2 = 2 * h / 9.81) by now apply pow2_sqrt.
    assert (Hfv : sqrt (2 * 9.81 * h) ^ 2 = 2 * 9.81 * h) by now apply pow2_sqrt.
    split; [| split].
    + apply sqrt_lem_1; [exact Hp | |].
      * apply Rmult_le_pos; [lra | apply sqrt_pos].
      * replace (9.81 * sqrt (2 * h / 9.81) * (9.81 * sqrt (2 * h / 9.81)))
          with (9.81 * 9.81 * sqrt (2 * h / 9.81) ^ 2) by ring.
        rewrite Htf. clear Hle. lra.
    + rewrite Htf. clear Hle. lra.
    + exact Hfv.
Qed.

Lemma free_fall_quantities_consistent_witness :
  exists distance final_velocity time_fall : R,
    _solve_free_fall (free_fall_problem [("height", VNum 15)]) !! "final_velocity"
    = Some (VNum final_velocity) /\
    _solve_free_fall (free_fall_problem [("height", VNum 15)]) !! "time_fall"
    = Some (VNum time_fall) /\
    _solve_free_fall (free_fall_problem [("height", VNum 15)]) !! "distance"
    = Some (VNum distance) /\
    final_velocity = 9.81 * time_fall /\
    final_velocity ^ 2 = 2 * 9.81 * distance.
Proof.
  destruct (free_fall_quantities_consistent
              (free_fall_problem [("height", VNum 15)]) 0 15)
    as (dist & fv & tf & Hd & Hfv & Htf & H1 & _ & H3).
  - reflexivity.
  - right. split; [lra|]. split; [reflexivity | lra].
  - exists dist, fv, tf. repeat split; assumption.
Defined.

(** * Further properties of the verification *)

(** ** The agreement score *)

Lemma relative_difference_nonneg (a s : R) :
  a <> 0 -> 0 <= Rabs (a - s) / Rmax (Rabs a) (Rabs s).
Proof.
  intros Ha. apply Rmult_le_pos; [apply Rabs_pos|].
  left. apply Rinv_0_lt_compat. now apply Rmax_abs_pos.
Qed.

(** X11: on numbers the agreement is perfect exactly when the two values
    are equal: the score is 1 if and only if [a = s]. *)
Theorem agreement_score_one_iff_equal (a s : R) :
  _calculate_agreement_score (VNum a) (VNum s) = Ok 1 <-> a = s.
Proof.
  destruct (Req_dec_T a 0) as [->|Ha]; destruct (Req_dec_T s 0) as [->|Hs].
  - rewrite score_zero_zero. tauto.
  - rewrite score_zero_l by assumption. split; intros H.
    + inversion H. lra.
    + now contradict Hs.
  - rewrite score_zero_r by assumption. split; intros H.
    + inversion H. lra.
    + now contradict Ha.
  - rewrite score_nonzero by assumption.
    pose proof (relative_difference_nonneg a s Ha) as Hrel.
    pose proof (Rmax_abs_pos a s Ha) as Hmax.
    set (q := Rabs (a - s) / Rmax (Rabs a) (Rabs s)) in *.
    split; intros H.
    + inversion H as [Hone].
      assert (Hq : q = 0).
      { unfold Rmax in Hone. destruct (Rle_dec 0 (1 - q)); lra. }
      assert (Habs : Rabs (a - s) = 0).
      { unfold q in Hq. apply (Rmult_eq_compat_r (Rmax (Rabs a) (Rabs s))) in Hq.
        unfold Rdiv in Hq. rewrite Rmult_assoc, Rinv_l, Rmult_1_r, Rmult_0_l in Hq; lra. }
      destruct (Req_dec_T (a - s) 0) as [H0|H0]; [lra|].
      apply Rabs_no_R0 in H0. contradiction.
    + subst s. f_equal. unfold q. unfold Rminus at 2.
      rewrite Rplus_opp_r, Rabs_R0. unfold Rdiv. rewrite Rmult_0_l, Rminus_0_r.
      apply Rmax_right. lra.
Qed.

(** X12: two numbers of opposite sign do not agree at all: the score is 0. *)
Theorem agreement_score_opposite_signs (a s : R) :
  a * s < 0 -> _calculate_agreement_score (VNum a) (VNum s) = Ok 0.
Proof.
  intros Hopp.
  assert (Ha : a <> 0) by (intros ->; lra).
  assert (Hs : s <> 0) by (intros ->; lra).
  rewrite score_nonzero by assumption. f_equal.
  pose proof (Rmax_abs_pos a s Ha) as Hmax.
  assert (Hge : Rmax (Rabs a) (Rabs s) <= Rabs (a - s)).
  { apply Rmax_lub; unfold Rabs;
      destruct (Rcase_abs a); destruct (Rcase_abs s); destruct (Rcase_abs (a - s));
      nra. }
  apply Rmax_left.
  assert (1 <= Rabs (a - s) / Rmax (Rabs a) (Rabs s)); [| lra].
  apply (Rmult_le_reg_r (Rmax (Rabs a) (Rabs s))); [exact Hmax|].
  unfold Rdiv. rewrite Rmult_assoc, Rinv_l by lra. lra.
Qed.

Lemma agreement_score_opposite_signs_witness :
  _calculate_agreement_score (VNum 5) (VNum (-5)) = Ok 0.
Proof. apply agreement_score_opposite_signs. lra. Defined.



(** X14: what the score does with something that is not a number (a list,
    a string, [None]): against a zero it returns 0.0 without looking at it,
    against a non-zero number the subtraction raises [TypeError]. *)
Theorem agreement_score_non_number (v : value) (x : R) :
  (forall y : R, v <> VNum y) ->
  _calculate_agreement_score (VNum 0) v = Ok 0 /\
  _calculate_agreement_score v (VNum 0) = Ok 0 /\
  (x <> 0 ->
   _calculate_agreement_score (VNum x) v = Raise TypeError /\
   _calculate_agreement_score v (VNum x) = Raise TypeError).
Proof.
  intros Hv.
  assert (Hx0 : bool_decide (0 = 0) = true) by now apply bool_decide_eq_true_2.
  destruct v as [|y| |]; [| exfalso; now apply (Hv y) | |];
    unfold _calculate_agreement_score, py_eq0; rewrite Hx0;
    (split; [reflexivity|]); (split; [reflexivity|]);
    intros Hx; rewrite (bool_decide_eq_false_2 (x = 0)) by assumption;
    split; reflexivity.
Qed.

Lemma agreement_score_non_number_witness :
  _calculate_agreement_score (VNum 0) (VList [VNum 1; VNum 2]) = Ok 0 /\
  _calculate_agreement_score (VNum 3) (VList [VNum 1; VNum 2]) = Raise TypeError.
Proof.
  destruct (agreement_score_non_number (VList [VNum 1; VNum 2]) 3)
    as (H0 & _ & H3); [intros y; discriminate|].
  split; [exact H0|]. apply H3. lra.
Defined.

(** ** Solving, simulating and verifying a collision *)

Lemma score_refl (x : R) : _calculate_agreement_score (VNum x) (VNum x) = Ok 1.
Proof.
  destruct (Req_dec_T x 0) as [->|Hx]; [apply score_zero_zero | now apply score_same].
Qed.

(** The simulator's closed form on two positive masses, written as the
    solver writes it. *)
Lemma simulate_collision_positive (mass_a mass_b va vb : R) :
  0 < mass_a -> 0 < mass_b ->
  exists x y : R,
    simulate_collision mass_a mass_b (VNum va) (VNum vb)
    = Some (dict_of [("velocity_a_final", VNum x); ("velocity_b_final", VNum y)]) /\
    x = ((mass_a - mass_b) * va + 2 * mass_b * vb) / (mass_a + mass_b) /\
    y = ((mass_b - mass_a) * vb + 2 * mass_a * va) / (mass_a + mass_b).
Proof.
  intros Ha Hb. unfold simulate_collision.
  destruct (decide (mass_a = mass_b)) as [Heq|Hne].
  - exists vb, va. split; [reflexivity|]. subst mass_b. split; field; lra.
  - destruct (decide (mass_a + mass_b = 0)) as [H0|_]; [lra|].
    cbn [mbind result_bind to_num catch_none].
    do 2 eexists. split; [reflexivity|]. split; field; lra.
Qed.

Section CollisionPipeline.
Context (E : Engine) (self : SimulationEngine).

(** X15: on a COLLISION problem with two positive masses the simulator
    returns the same two final velocities as the analytical solver (over
    the reals): it evaluates the same closed form, or the exchange when the
    masses are equal. *)
Theorem collision_simulation_matches_solver (problem : PhysicsProblem)
        (a b : PhysicsObject) (rest : list PhysicsObject) (va vb : R) :
  problem_type problem = COLLISION ->
  objects problem = a :: b :: rest ->
  0 < mass a -> 0 < mass b ->
  first_if_list (velocity a) = Ok (VNum va) ->
  first_if_list (velocity b) = Ok (VNum vb) ->
  exists (sol : Solution.t) (d : gmap string value) (va' vb' : R),
    solve_problem problem = Ok sol /\
    Solution.answer sol = VList [VNum va'; VNum vb'] /\
    simulate E self problem = Some d /\
    d !! "velocity_a_final" = Some (VNum va') /\
    d !! "velocity_b_final" = Some (VNum vb').
Proof.
  intros Hty Hobj Ha Hb Hva Hvb.
  destruct (solve_problem_collision _ _ _ _ _ _ Hty Hobj Ha Hb Hva Hvb)
    as (sol & Hsol & Hans).
  destruct (simulate_collision_positive (mass a) (mass b) va vb Ha Hb)
    as (x & y & Hsim & -> & ->).
  exists sol. do 3 eexists. split; [exact Hsol|]. split; [exact Hans|].
  rewrite (simulate_collision_problem E self _ _ _ _ _ _ Hty Hobj Hva Hvb), Hsim.
  split; [reflexivity|]. split; reflexivity.
Qed.

(** X16: a COLLISION answer that is, number for number, what the simulator
    returned always passes verification: [verify_solution] returns no error,
    agreement score 1, confidence 1 and [is_valid = True], and shows the two
    simulated velocities. *)
Theorem collision_answer_equal_to_simulation_verifies (problem : PhysicsProblem)
        (solution : Solution.t) (d : gmap string value) (x y : R) :
  problem_type problem = COLLISION ->
  simulate E self problem = Some d ->
  d !! "velocity_a_final" = Some (VNum x) ->
  d !! "velocity_b_final" = Some (VNum y) ->
  Solution.answer solution = VList [VNum x; VNum y] ->
  exists r : VerificationResult.t,
    verify_solution E self problem solution = Ok r /\
    VerificationResult.error r = None /\
    VerificationResult.agreement_score r = 1 /\
    VerificationResult.confidence r = 1 /\
    VerificationResult.is_valid r = true /\
    VerificationResult.simulation_result r = Some (DisplayCollision x y).
Proof.
  intros Hty Hsim Hx Hy Hans.
  destruct (verify_solution_collision E self problem solution d x y x y
              Hty Hsim Hx Hy Hans) as (sa & sb & Hsa & Hsb & Hv).
  rewrite score_refl in Hsa, Hsb. inversion Hsa; inversion Hsb; subst sa sb.
  eexists. split; [exact Hv|].
  cbn [VerificationResult.error VerificationResult.agreement_score
       VerificationResult.confidence VerificationResult.is_valid
       VerificationResult.simulation_result].
  split; [reflexivity|]. split; [lra|]. split; [lra|].
  split; [apply bool_decide_eq_true_2; lra | reflexivity].
Qed.

(** X17: verification of a COLLISION problem does not use the physics
    engine or the simulator's settings: the result is the same with any
    other engine. *)
Theorem collision_verification_ignores_engine (E' : Engine) (self' : SimulationEngine)
        (problem : PhysicsProblem) (solution : Solution.t) :
  problem_type problem = COLLISION ->
  verify_solution E self problem solution = verify_solution E' self' problem solution.
Proof.
  intros Hty.
  assert (Hsim : simulate E self problem = simulate E' self' problem).
  { unfold simulate. now rewrite Hty. }
  unfold verify_solution, verify_solution_body. now rewrite Hsim.
Qed.

End CollisionPipeline.

Lemma collision_simulation_matches_solver_witness :
  exists (sol : Solution.t) (d : gmap string value) (va' vb' : R),
    solve_problem (collision_problem [ball "Ball A" 2 3; ball "Ball B" 1 0]) = Ok sol /\
    Solution.answer sol = VList [VNum va'; VNum vb'] /\
    simulate ballistic_engine SimulationEngine_init
             (collision_problem [ball "Ball A" 2 3; ball "Ball B" 1 0]) = Some d /\
    d !! "velocity_a_final" = Some (VNum va') /\
    d !! "velocity_b_final" = Some (VNum vb').
Proof.
  apply (collision_simulation_matches_solver ballistic_engine SimulationEngine_init
           (collision_problem [ball "Ball A" 2 3; ball "Ball B" 1 0])
           (ball "Ball A" 2 3) (ball "Ball B" 1 0) [] 3 0);
    simpl; first [reflexivity | lra].
Defined.

Lemma collision_answer_equal_to_simulation_verifies_witness :
  exists r : VerificationResult.t,
    verify_solution ballistic_engine SimulationEngine_init
                    (collision_problem [ball "Ball A" 1 5; ball "Ball B" 1 0])
                    (collision_solution 0 5) = Ok r /\
    VerificationResult.agreement_score r = 1 /\
    VerificationResult.is_valid r = true.
Proof.
  destruct (collision_answer_equal_to_simulation_verifies
              ballistic_engine SimulationEngine_init
              (collision_problem [ball "Ball A" 1 5; ball "Ball B" 1 0])
              (collision_solution 0 5)
              (dict_of [("velocity_a_final", VNum 0); ("velocity_b_final", VNum 5)])
              0 5)
    as (r & Hv & _ & Hscore & _ & Hvalid & _); try reflexivity.
  - rewrite (simulate_collision_problem ballistic_engine SimulationEngine_init
               _ (ball "Ball A" 1 5) (ball "Ball B" 1 0) [] (VNum 5) (VNum 0))
      by reflexivity.
    apply simulate_collision_equal.
  - exists r. repeat split; assumption.
Defined.

Lemma collision_verification_ignores_engine_witness :
  verify_solution ballistic_engine SimulationEngine_init
                  (collision_problem [ball "Ball A" 1 5; ball "Ball B" 1 0])
                  (collision_solution 0 5)
  = verify_solution ballistic_engine {| time_step := 1; max_steps := 1 |}
                    (collision_problem [ball "Ball A" 1 5; ball "Ball B" 1 0])
                    (collision_solution 0 5).
Proof.
  apply collision_verification_ignores_engine. reflexivity.
Defined.

(** ** Solving, simulating and verifying a free fall *)

Lemma dict_get_lookup (d : gmap string value) (k : string) (v dflt : value) :
  d !! k = Some v -> dict_get d k dflt = v.
Proof. intros H. unfold dict_get. now rewrite H. Qed.

(** [solve_problem] on a free-fall problem that asks for the final velocity
    or the distance. *)
Lemma solve_problem_free_fall_asked (problem : PhysicsProblem)
      (d : gmap string value) (q : string) (v : value) :
  problem_type problem = FREE_FALL ->
  _solve_free_fall problem = d ->
  initial_conditions problem !! "quantity_asked" = Some (VStr q) ->
  q = "final_velocity" \/ q = "distance" ->
  d !! q = Some v ->
  exists sol : Solution.t,
    solve_problem problem = Ok sol /\ Solution.answer sol = v.
Proof.
  intros Hty Hd Hq Hcases Hv. unfold solve_problem.
  rewrite Hty, Hd, (dict_get_lookup _ _ _ _ Hq).
  rewrite (lookup_dict_truthy _ _ _ Hv).
  destruct Hcases as [-> | ->].
  - replace (py_eq_str (VStr "final_velocity") "final_velocity") with true
      by reflexivity.
    rewrite (set_answer_ok _ _ _ _ Hv). cbn [fmap result_fmap mbind result_bind].
    rewrite (lookup_dict_truthy _ "unit" (VStr "m/s")) by apply lookup_insert_eq.
    unfold dict_item.
    rewrite (lookup_insert_ne _ "unit" "answer") by (intros ?; discriminate).
    rewrite !lookup_insert_eq. cbn [mbind result_bind].
    eexists. split; reflexivity.
  - replace (py_eq_str (VStr "distance") "final_velocity") with false by reflexivity.
    replace (py_eq_str (VStr "distance") "distance") with true by reflexivity.
    cbv iota.
    rewrite (set_answer_ok _ _ _ _ Hv). cbn [fmap result_fmap mbind result_bind].
    rewrite (lookup_dict_truthy _ "unit" (VStr "m")) by apply lookup_insert_eq.
    unfold dict_item.
    rewrite (lookup_insert_ne _ "unit" "answer") by (intros ?; discriminate).
    rewrite !lookup_insert_eq. cbn [mbind result_bind].
    eexists. split; reflexivity.
Qed.

Section FreeFallPipeline.
Context (E : Engine) (self : SimulationEngine).

(** [verify_solution] on a free-fall problem whose simulation returned the
    dictionary [d]: the answer is compared with [d['final_velocity']] when
    the problem asks for ['final_velocity'], and with [d['distance']] in
    every other case. *)
Lemma verify_solution_free_fall (problem : PhysicsProblem) (solution : Solution.t)
      (d : gmap string value) (a s : R) :
  problem_type problem = FREE_FALL ->
  simulate E self problem = Some d ->
  Solution.answer solution = VNum a ->
  d !! (if py_eq_str (dict_get (initial_conditions problem) "quantity_asked" VNone)
                     "final_velocity"
        then "final_velocity" else "distance") = Some (VNum s) ->
  exists score : R,
    _calculate_agreement_score (VNum a) (VNum s) = Ok score /\
    0 <= score <= 1 /\
    verify_solution E self problem solution =
      Ok {| VerificationResult.is_valid := bool_decide (score > 0.8);
            VerificationResult.confidence := score;
            VerificationResult.error := None;
            VerificationResult.analytical_result := VNum a;
            VerificationResult.simulation_result :=
              Some (DisplayScalar s
                      (if py_eq_str (dict_get (initial_conditions problem)
                                              "quantity_asked" VNone)
                                    "final_velocity"
                       then "m/s" else "m"));
            VerificationResult.agreement_score := score |}.
Proof.
  intros Hty Hsim Hans Hs.
  destruct (score_total a s) as (score & Hscore & Hrange).
  exists score. split; [exact Hscore|]. split; [exact Hrange|].
  unfold verify_solution, verify_solution_body.
  rewrite Hsim. cbn [sim_result_falsy default].
  rewrite (lookup_dict_truthy _ _ _ Hs). cbn [negb].
  rewrite Hty, Hans.
  destruct (py_eq_str (dict_get (initial_conditions problem) "quantity_asked" VNone)
                      "final_velocity");
    rewrite (dict_get_lookup _ _ _ _ Hs);
    unfold agreement; cbn [is_list andb]; rewrite Hscore;
    cbn [mbind result_bind format_2f]; reflexivity.
Qed.

(** X18: on a FREE_FALL problem that asks for ['final_velocity'] or for
    ['distance'], whenever the simulator returns a result the solver's own
    answer passes verification with agreement score 1: the simulator
    reports the same closed-form value that the solver computes. *)
Theorem free_fall_solution_verifies (problem : PhysicsProblem) (q : string)
        (d : gmap string value) :
  problem_type problem = FREE_FALL ->
  initial_conditions problem !! "quantity_asked" = Some (VStr q) ->
  q = "final_velocity" \/ q = "distance" ->
  simulate E self problem = Some d ->
  exists (sol : Solution.t) (r : VerificationResult.t),
    solve_problem problem = Ok sol /\
    verify_solution E self problem sol = Ok r /\
    VerificationResult.error r = None /\
    VerificationResult.agreement_score r = 1 /\
    VerificationResult.is_valid r = true.
Proof.
  intros Hty Hq Hcases Hsim.
  assert (Hkey : (if py_eq_str (dict_get (initial_conditions problem)
                                         "quantity_asked" VNone) "final_velocity"
                  then "final_velocity" else "distance") = q).
  { rewrite (dict_get_lookup _ _ _ _ Hq). now destruct Hcases as [-> | ->]. }
  assert (Hboth : exists x : R,
             d !! q = Some (VNum x) /\ _solve_free_fall problem !! q = Some (VNum x)).
  { pose proof Hsim as Hff. unfold simulate in Hff. rewrite Hty in Hff.
    apply simulate_free_fall_inv
      in Hff as (t & Ht & [(Hgt & ->) | (Hle & h & Hh & Hpos & ->)]).
    - rewrite (_solve_free_fall_time_based problem t Ht Hgt). cbv zeta.
      destruct Hcases as [-> | ->]; eexists; split; reflexivity.
    - rewrite (_solve_free_fall_height_based problem t h Ht Hle Hh Hpos). cbv zeta.
      destruct Hcases as [-> | ->]; eexists; split; reflexivity. }
  destruct Hboth as (x & Hdx & Hsx).
  destruct (solve_problem_free_fall_asked problem _ q (VNum x) Hty eq_refl Hq
              Hcases Hsx) as (sol & Hsol & Hans).
  rewrite <- Hkey in Hdx.
  destruct (verify_solution_free_fall problem sol d x x Hty Hsim Hans Hdx)
    as (score & Hscore & _ & Hv).
  rewrite score_refl in Hscore. inversion Hscore; subst score.
  exists sol. eexists. split; [exact Hsol|]. split; [exact Hv|].
  cbn [VerificationResult.error VerificationResult.agreement_score
       VerificationResult.is_valid].
  split; [reflexivity|]. split; [reflexivity|].
  apply bool_decide_eq_true_2. lra.
Qed.

(** X19: on a FREE_FALL problem without a time, with height [h >= 0], that
    asks for ['time_fall'], the verifier compares the solver's answer, the
    fall time [sqrt (2 * h / g)] in seconds, with the simulated distance
    [h] in metres: the agreement score of the result is the score of these
    two numbers, and the simulation is shown as [h] with unit [m]. *)
Theorem free_fall_time_checked_against_distance (problem : PhysicsProblem)
        (t h : R) (d : gmap string value) :
  problem_type problem = FREE_FALL ->
  dict_get (initial_conditions problem) "time" (VNum 0) = VNum t -> t <= 0 ->
  dict_get (initial_conditions problem) "height" (VNum 0) = VNum h -> 0 <= h ->
  initial_conditions problem !! "quantity_asked" = Some (VStr "time_fall") ->
  simulate E self problem = Some d ->
  exists (sol : Solution.t) (r : VerificationResult.t),
    solve_problem problem = Ok sol /\
    Solution.answer sol = VNum (sqrt (2 * h / 9.81)) /\
    verify_solution E self problem sol = Ok r /\
    VerificationResult.error r = None /\
    VerificationResult.simulation_result r = Some (DisplayScalar h "m") /\
    _calculate_agreement_score (VNum (sqrt (2 * h / 9.81))) (VNum h)
    = Ok (VerificationResult.agreement_score r).
Proof.
  intros Hty Ht Hle Hh Hpos Hq Hsim.
  pose proof (_solve_free_fall_height_based problem t h Ht Hle Hh Hpos) as Hd.
  cbv zeta in Hd. rewrite (dict_get_lookup _ _ _ _ Hq) in Hd.
  replace (py_eq_str (VStr "time_fall") "final_velocity") with false in Hd
    by reflexivity.
  assert (Hsolve : exists sol : Solution.t,
             solve_problem problem = Ok sol /\
             Solution.answer sol = VNum (sqrt (2 * h / 9.81))).
  { unfold solve_problem. rewrite Hty, Hd, (dict_get_lookup _ _ _ _ Hq).
    match goal with
    | |- context [dict_truthy ?d] => replace (dict_truthy d) with true by reflexivity
    end.
    replace (py_eq_str (VStr "time_fall") "final_velocity") with false by reflexivity.
    replace (py_eq_str (VStr "time_fall") "distance") with false by reflexivity.
    replace (py_eq_str (VStr "time_fall") "time_fall") with true by reflexivity.
    cbv iota.
    rewrite (set_answer_ok _ "time_fall" "s" (VNum (sqrt (2 * h / 9.81))))
      by reflexivity.
    cbn [fmap result_fmap mbind result_bind].
    rewrite (lookup_dict_truthy _ "unit" (VStr "s")) by apply lookup_insert_eq.
    unfold dict_item.
    rewrite (lookup_insert_ne _ "unit" "answer") by (intros ?; discriminate).
    rewrite !lookup_insert_eq. cbn [mbind result_bind].
    eexists. split; reflexivity. }
  destruct Hsolve as (sol & Hsol & Hans).
  assert (Hdist : d !! "distance" = Some (VNum h)).
  { pose proof Hsim as Hff. unfold simulate in Hff. rewrite Hty, Ht, Hh in Hff.
    apply simulate_free_fall_inv
      in Hff as (t' & Ht' & [(Hgt & ->) | (_ & h' & Hh' & _ & ->)]).
    - inversion Ht'; subst t'. lra.
    - inversion Hh'; subst h'. reflexivity. }
  assert (Hkey : py_eq_str (dict_get (initial_conditions problem)
                                     "quantity_asked" VNone) "final_velocity" = false).
  { now rewrite (dict_get_lookup _ _ _ _ Hq). }
  destruct (verify_solution_free_fall problem sol d (sqrt (2 * h / 9.81)) h
              Hty Hsim Hans) as (score & Hscore & _ & Hv).
  { now rewrite Hkey. }
  rewrite Hkey in Hv.
  exists sol. eexists. split; [exact Hsol|]. split; [exact Hans|].
  split; [exact Hv|].
  cbn [VerificationResult.error VerificationResult.agreement_score
       VerificationResult.simulation_result].
  split; [reflexivity|]. split; [reflexivity | exact Hscore].
Qed.

End FreeFallPipeline.

Lemma free_fall_solution_verifies_witness :
  let problem := free_fall_problem [("height", VNum 15);
                                    ("quantity_asked", VStr "distance")] in
  exists (sol : Solution.t) (r : VerificationResult.t),
    solve_problem problem = Ok sol /\
    verify_solution ballistic_engine SimulationEngine_init problem sol = Ok r /\
    VerificationResult.agreement_score r = 1 /\
    VerificationResult.is_valid r = true.
Proof.
  intros problem.
  destruct (simulate_free_fall_returns ballistic_engine SimulationEngine_init
              {| bw_dt := 1 / 240; bw_pos := (0, 0, 0); bw_vel := (0, 0, 0) |} 0 15 0)
    as [d Hd]; [reflexivity | simpl; eauto | exact ballistic_step_total | lra |].
  assert (Hsim : simulate ballistic_engine SimulationEngine_init problem = Some d)
    by exact Hd.
  destruct (free_fall_solution_verifies ballistic_engine SimulationEngine_init
              problem "distance" d eq_refl eq_refl (or_intror eq_refl) Hsim)
    as (sol & r & Hsol & Hv & _ & Hscore & Hvalid).
  exists sol, r. repeat split; assumption.
Defined.

Lemma free_fall_time_checked_against_distance_witness :
  let problem := free_fall_problem [("height", VNum 15);
                                    ("quantity_asked", VStr "time_fall")] in
  exists (sol : Solution.t) (r : VerificationResult.t),
    solve_problem problem = Ok sol /\
    verify_solution ballistic_engine SimulationEngine_init problem sol = Ok r /\
    VerificationResult.simulation_result r = Some (DisplayScalar 15 "m") /\
    _calculate_agreement_score (VNum (sqrt (2 * 15 / 9.81))) (VNum 15)
    = Ok (VerificationResult.agreement_score r).
Proof.
  intros problem.
  destruct (simulate_free_fall_returns ballistic_engine SimulationEngine_init
              {| bw_dt := 1 / 240; bw_pos := (0, 0, 0); bw_vel := (0, 0, 0) |} 0 15 0)
    as [d Hd]; [reflexivity | simpl; eauto | exact ballistic_step_total | lra |].
  assert (Hsim : simulate ballistic_engine SimulationEngine_init problem = Some d)
    by exact Hd.
  destruct (free_fall_time_checked_against_distance ballistic_engine
              SimulationEngine_init problem 0 15 d)
    as (sol & r & Hsol & _ & Hv & _ & Hshown & Hscore);
    first [reflexivity | lra | exact Hsim | idtac].
  exists sol, r. repeat split; assumption.
Defined.

(** ** Simulations that produce nothing *)

Lemma Int_part_0 : Int_part 0 = 0%Z.
Proof.
  unfold Int_part. replace (up 0) with 1%Z; [reflexivity|].
  apply tech_up; simpl; lra.
Qed.

Section SimulationEdges.
Context (E : Engine) (self : SimulationEngine).

(** X20: a problem type other than PROJECTILE, FREE_FALL, PENDULUM and
    COLLISION is not simulated: [simulate] returns an error dictionary that
    names the type, and [verify_solution] reports
    ["Problem type not supported for verification"] with [is_valid = False]
    and confidence 0, whatever the solution. *)
Theorem unsupported_type_not_verified (problem : PhysicsProblem)
        (solution : Solution.t) :
  problem_type problem <> PROJECTILE -> problem_type problem <> FREE_FALL ->
  problem_type problem <> PENDULUM -> problem_type problem <> COLLISION ->
  simulate E self problem
  = Some (dict_of [("error",
                    VStr ("Simulation failed: Unsupported problem type: "
                          ++ ProblemType_str (problem_type problem)))]) /\
  verify_solution E self problem solution
  = Ok (failed_verification "Problem type not supported for verification"
                            (DisplayText "Unsupported problem type")).
Proof.
  intros H1 H2 H3 H4.
  unfold verify_solution, verify_solution_body, simulate.
  destruct (problem_type problem); try congruence; split; reflexivity.
Qed.

(** X21: when the engine cannot be connected to, a PROJECTILE, FREE_FALL
    or PENDULUM problem has no simulation ([simulate] returns [None]) and
    [verify_solution] reports ["Simulation failed to run"] with
    [is_valid = False] and confidence 0, whatever the solution. *)
Theorem engine_offline_not_verified (problem : PhysicsProblem)
        (solution : Solution.t) :
  connect E (time_step self) = None ->
  problem_type problem = PROJECTILE \/ problem_type problem = FREE_FALL \/
  problem_type problem = PENDULUM ->
  simulate E self problem = None /\
  verify_solution E self problem solution
  = Ok (failed_verification "Simulation failed to run"
                            (DisplayText "Simulation failed")).
Proof.
  intros Hconn Hty.
  assert (Hsim : simulate E self problem = None).
  { unfold simulate.
    destruct Hty as [-> | [-> | ->]];
      [unfold simulate_projectile | unfold simulate_free_fall
       | unfold simulate_pendulum];
      rewrite Hconn; reflexivity. }
  split; [exact Hsim|].
  unfold verify_solution, verify_solution_body. now rewrite Hsim.
Qed.

Lemma simulate_pendulum_nonpositive (len : R) (initial_angle : value) :
  len <= 0 -> simulate_pendulum E self (VNum len) initial_angle = None.
Proof.
  intros Hlen. unfold simulate_pendulum.
  destruct (connect E (time_step self)) as [w|]; [| reflexivity].
  cbn [mbind result_bind to_num].
  destruct (to_num initial_angle) as [ang|e]; [| reflexivity].
  cbn [mbind result_bind].
  destruct (spawn_pendulum E w len _) as [w1|]; [| reflexivity].
  cbn [mbind result_bind engine_call].
  destruct (Rlt_dec len 0) as [Hneg|Hzero].
  - rewrite (math_sqrt_neg (len / 9.81)) by lra. reflexivity.
  - assert (len = 0) by lra. subst len.
    rewrite (math_sqrt_nonneg (0 / 9.81)) by lra.
    cbn [mbind result_bind].
    replace (0 / 9.81) with 0 by lra. rewrite sqrt_0.
    replace (3 * (2 * PI * 0) / time_step self) with 0
      by (unfold Rdiv; rewrite Rmult_0_r, Rmult_0_r, Rmult_0_l; reflexivity).
    unfold py_int_range. rewrite Int_part_0. reflexivity.
Qed.

(** X22: a pendulum whose length is not positive is never simulated: the
    simulator returns [None] on any engine (the square root fails for a
    negative length, and a length of 0 gives no steps), and
    [verify_solution] reports ["Simulation failed to run"]. *)
Theorem pendulum_nonpositive_length_not_simulated (problem : PhysicsProblem)
        (solution : Solution.t) (len : R) :
  problem_type problem = PENDULUM ->
  dict_get (initial_conditions problem) "length" (VNum 1) = VNum len ->
  len <= 0 ->
  simulate E self problem = None /\
  verify_solution E self problem solution
  = Ok (failed_verification "Simulation failed to run"
                            (DisplayText "Simulation failed")).
Proof.
  intros Hty Hlen Hle.
  assert (Hsim : simulate E self problem = None).
  { unfold simulate. rewrite Hty, Hlen. now apply simulate_pendulum_nonpositive. }
  split; [exact Hsim|].
  unfold verify_solution, verify_solution_body. now rewrite Hsim.
Qed.

(** X23: two different masses that cancel ([mass_a + mass_b = 0]) make
    the collision simulator divide by zero: it returns [None], and
    [verify_solution] reports ["Simulation failed to run"]. *)
Theorem collision_masses_cancel_not_simulated (problem : PhysicsProblem)
        (solution : Solution.t) (a b : PhysicsObject) (rest : list PhysicsObject)
        (va vb : value) :
  problem_type problem = COLLISION ->
  objects problem = a :: b :: rest ->
  first_if_list (velocity a) = Ok va ->
  first_if_list (velocity b) = Ok vb ->
  mass a <> mass b -> mass a + mass b = 0 ->
  simulate_collision (mass a) (mass b) va vb = None /\
  simulate E self problem = None /\
  verify_solution E self problem solution
  = Ok (failed_verification "Simulation failed to run"
                            (DisplayText "Simulation failed")).
Proof.
  intros Hty Hobj Hva Hvb Hne Hzero.
  assert (Hcol : simulate_collision (mass a) (mass b) va vb = None).
  { unfold simulate_collision.
    destruct (decide (mass a = mass b)) as [Heq|_]; [contradiction|].
    destruct (decide (mass a + mass b = 0)) as [_|Hnz]; [reflexivity | contradiction]. }
  assert (Hsim : simulate E self problem = None).
  { unfold simulate. rewrite Hty, Hobj.
    cbn [object_at lookup list_lookup mbind result_bind].
    rewrite Hva. cbn [mbind result_bind]. rewrite Hvb. cbn [mbind result_bind].
    exact Hcol. }
  split; [exact Hcol|]. split; [exact Hsim|].
  unfold verify_solution, verify_solution_body. now rewrite Hsim.
Qed.

(** The running maxima of the projectile loop only grow. *)
Lemma projectile_loop_maxima (n : nat) (w : world E) (st st' : projectile_state) :
  projectile_loop E self n w st = Ok st' ->
  ps_range_x st <= ps_range_x st' /\ ps_max_height st <= ps_max_height st'.
Proof.
  revert w st. induction n as [|n IH]; intros w st Hloop.
  - simpl in Hloop. inversion Hloop; subst st'. lra.
  - simpl in Hloop.
    destruct (stepSimulation E w) as [w'|]; [| discriminate Hloop].
    cbn [mbind result_bind engine_call] in Hloop.
    pose proof (py_max_Rmax (ps_range_x st) (vx (getBasePosition E w'))) as Hx.
    pose proof (py_max_Rmax (ps_max_height st) (vz (getBasePosition E w'))) as Hz.
    pose proof (Rmax_l (ps_range_x st) (vx (getBasePosition E w'))) as Hxl.
    pose proof (Rmax_l (ps_max_height st) (vz (getBasePosition E w'))) as Hzl.
    destruct (decide (vz (getBasePosition E w') <= radius)) as [Hdown|Hup].
    + inversion Hloop; subst st'. cbn [ps_range_x ps_max_height].
      rewrite Hx, Hz. split; assumption.
    + apply IH in Hloop. cbn [ps_range_x ps_max_height] in Hloop.
      rewrite Hx, Hz in Hloop. lra.
Qed.

(** X24: whatever the engine does, a result of the projectile simulator
    has a range that is not negative (the running maximum of x starts at
    0, so a throw towards negative x is reported with range 0) and a
    maximum height of at least [height - radius]. *)
Theorem simulate_projectile_maxima (initial_velocity angle height : value)
        (r : gmap string value) :
  simulate_projectile E self initial_velocity angle height = Some r ->
  exists h range_x max_height : R,
    height = VNum h /\
    r !! "range" = Some (VNum range_x) /\
    r !! "max_height" = Some (VNum max_height) /\
    0 <= range_x /\
    h - radius <= max_height.
Proof.
  unfold simulate_projectile. intros Hsim.
  destruct (connect E (time_step self)) as [w|]; [| discriminate Hsim].
  destruct height as [|h| |]; try discriminate Hsim.
  destruct angle as [|ang| |]; try discriminate Hsim.
  destruct initial_velocity as [|v0| |]; try discriminate Hsim.
  cbn [mbind result_bind to_num] in Hsim.
  destruct (spawn_sphere E w _ _) as [w1|]; [| discriminate Hsim].
  cbn [mbind result_bind engine_call] in Hsim.
  match type of Hsim with
  | context [projectile_loop E self ?n w1 ?s] =>
      destruct (projectile_loop E self n w1 s) as [st'|e] eqn:Hloop;
        [| discriminate Hsim]
  end.
  apply projectile_loop_maxima in Hloop. cbn [ps_range_x ps_max_height] in Hloop.
  cbn [mbind result_bind] in Hsim.
  destruct (ps_positions st') as [|p ps]; [discriminate Hsim|].
  cbn [catch_none] in Hsim. inversion Hsim; subst r.
  exists h, (ps_range_x st'), (ps_max_height st' - radius).
  split; [reflexivity|]. split; [reflexivity|]. split; [reflexivity|].
  lra.
Qed.

End SimulationEdges.

Lemma unsupported_type_not_verified_witness :
  verify_solution ballistic_engine SimulationEngine_init spring_problem
                  (collision_solution 0 5)
  = Ok (failed_verification "Problem type not supported for verification"
                            (DisplayText "Unsupported problem type")).
Proof.
  apply (unsupported_type_not_verified ballistic_engine SimulationEngine_init
           spring_problem (collision_solution 0 5)); simpl; discriminate.
Defined.

Lemma engine_offline_not_verified_witness :
  verify_solution offline_engine SimulationEngine_init
                  (free_fall_problem [("height", VNum 15)]) (collision_solution 0 5)
  = Ok (failed_verification "Simulation failed to run"
                            (DisplayText "Simulation failed")).
Proof.
  apply (engine_offline_not_verified offline_engine SimulationEngine_init
           (free_fall_problem [("height", VNum 15)]) (collision_solution 0 5));
    [reflexivity | right; left; reflexivity].
Defined.

Lemma pendulum_nonpositive_length_not_simulated_witness :
  simulate ballistic_engine SimulationEngine_init
           (pendulum_problem [("length", VNum (-2))]) = None.
Proof.
  apply (pendulum_nonpositive_length_not_simulated ballistic_engine
           SimulationEngine_init (pendulum_problem [("length", VNum (-2))])
           (collision_solution 0 5) (-2)); [reflexivity | reflexivity | lra].
Defined.

Lemma collision_masses_cancel_not_simulated_witness :
  simulate ballistic_engine SimulationEngine_init
           (collision_problem [ball "Ball A" 1 5; ball "Ball B" (-1) 0]) = None.
Proof.
  apply (collision_masses_cancel_not_simulated ballistic_engine SimulationEngine_init
           (collision_problem [ball "Ball A" 1 5; ball "Ball B" (-1) 0])
           (collision_solution 0 5)
           (ball "Ball A" 1 5) (ball "Ball B" (-1) 0) [] (VNum 5) (VNum 0));
    first [reflexivity | simpl; lra].
Defined.

Lemma simulate_projectile_maxima_witness :
  exists (r : gmap string value) (range_x max_height : R),
    simulate_projectile ballistic_engine SimulationEngine_init
                        (VNum 0) (VNum 0) (VNum 10000) = Some r /\
    r !! "range" = Some (VNum range_x) /\
    r !! "max_height" = Some (VNum max_height) /\
    0 <= range_x /\ 10000 - radius <= max_height.
Proof.
  destruct (simulate_projectile_budget ballistic_engine SimulationEngine_init
              ballistic_step_total
              {| bw_dt := 1 / 240; bw_pos := (0, 0, 0); bw_vel := (0, 0, 0) |}
              {| bw_dt := 1 / 240; bw_pos := (0, 0, 10000 + radius);
                 bw_vel := (0 * cos (math_radians 0), 0, 0 * sin (math_radians 0)) |}
              0 0 10000 max_steps_init_pos)
    as (k & r & _ & _ & Hsim & _); [reflexivity | reflexivity |].
  destruct (simulate_projectile_maxima ballistic_engine SimulationEngine_init
              (VNum 0) (VNum 0) (VNum 10000) r Hsim)
    as (h & rx & mh & Hh & Hrx & Hmh & H0 & H1).
  inversion Hh; subst h.
  exists r, rx, mh. repeat split; assumption.
Defined.

(** ** The helpers of the per-type verifiers *)

(** X25: the two scoring functions of the verification engine agree on
    numbers: [_calculate_agreement_score] returns what
    [_calculate_agreement] returns. *)
Theorem agreement_functions_agree (a s : R) :
  _calculate_agreement_score (VNum a) (VNum s) = Ok (_calculate_agreement a s).
Proof.
  unfold _calculate_agreement_score, _calculate_agreement, py_eq0.
  destruct (bool_decide (a = 0)); destruct (bool_decide (s = 0)); reflexivity.
Qed.

(** X26: the confidence derived from an agreement score always lies in
    [[0.1, 0.99]], and it never decreases when the score increases. *)
Theorem confidence_bounded_monotone (s s' : R) :
  s <= s' ->
  0.1 <= _calculate_confidence s <= 0.99 /\
  _calculate_confidence s <= _calculate_confidence s'.
Proof.
  intros Hle.
  unfold _calculate_confidence, HIGH_CONFIDENCE_THRESHOLD,
    MEDIUM_CONFIDENCE_THRESHOLD, py_min, py_max.
  repeat match goal with
         | |- context [decide ?P] => destruct (decide P)
         end; lra.
Qed.

Lemma confidence_bounded_monotone_witness :
  0.1 <= _calculate_confidence 0.65 <= 0.99 /\
  _calculate_confidence 0.65 <= _calculate_confidence 0.95.
Proof.
  apply (confidence_bounded_monotone 0.65 0.95). lra.
Defined.

(** ** utils/physics_math.py *)

(** X27: whenever the masses do not cancel, [collision_1d] returns two
    velocities that conserve the momentum and whose difference is the
    coefficient of restitution times the approach velocity; with
    coefficient 1 the kinetic energy is conserved too. *)
Theorem collision_1d_laws (m1 v1 m2 v2 e : R) :
  m1 + m2 <> 0 ->
  exists v1f v2f : R,
    PhysicsMath.collision_1d m1 v1 m2 v2 e = Ok (v1f, v2f) /\
    m1 * v1f + m2 * v2f = m1 * v1 + m2 * v2 /\
    v2f - v1f = e * (v1 - v2) /\
    (e = 1 -> m1 * v1f ^ 2 + m2 * v2f ^ 2 = m1 * v1 ^ 2 + m2 * v2 ^ 2).
Proof.
  intros Hm. unfold PhysicsMath.collision_1d.
  destruct (decide (m1 + m2 = 0)) as [H0|_]; [contradiction|].
  do 2 eexists. split; [reflexivity|].
  split; [field; exact Hm|]. split; [ring|].
  intros ->. field. exact Hm.
Qed.

Lemma collision_1d_laws_witness :
  exists v1f v2f : R,
    PhysicsMath.collision_1d 2 3 1 0 1 = Ok (v1f, v2f) /\
    2 * v1f + 1 * v2f = 2 * 3 + 1 * 0 /\
    v2f - v1f = 1 * (3 - 0).
Proof.
  destruct (collision_1d_laws 2 3 1 0 1) as (v1f & v2f & Hc & Hp & Hr & _); [lra|].
  exists v1f, v2f. repeat split; assumption.
Defined.

(** X28: for two positive masses and coefficient of restitution 1,
    [collision_1d] returns the two final velocities that [_solve_collision]
    gives as its answer (over the reals). *)
Theorem collision_1d_matches_solver (mass_a mass_b va vb : R) :
  0 < mass_a -> 0 < mass_b ->
  exists (d : gmap string value) (va' vb' : R),
    _solve_collision mass_a mass_b (VNum va) (VNum vb) = Ok d /\
    d !! "answer" = Some (VList [VNum va'; VNum vb']) /\
    PhysicsMath.collision_1d mass_a va mass_b vb 1 = Ok (va', vb').
Proof.
  intros Ha Hb.
  destruct (_solve_collision_closed_form mass_a mass_b (VNum va) (VNum vb) va vb
              Ha Hb eq_refl eq_refl) as (d & Hd & _ & _ & Hans).
  exists d. do 2 eexists. split; [exact Hd|]. split; [exact Hans|].
  unfold PhysicsMath.collision_1d.
  destruct (decide (mass_a + mass_b = 0)) as [H0|_]; [lra|].
  f_equal. f_equal; field; lra.
Qed.

Lemma collision_1d_matches_solver_witness :
  exists (d : gmap string value) (va' vb' : R),
    _solve_collision 2 1 (VNum 3) (VNum 0) = Ok d /\
    d !! "answer" = Some (VList [VNum va'; VNum vb']) /\
    PhysicsMath.collision_1d 2 3 1 0 1 = Ok (va', vb').
Proof.
  apply (collision_1d_matches_solver 2 1 3 0); lra.
Defined.

(** X29: whenever its discriminant [v0^2 + 2 * g * h] is not negative,
    [free_fall] returns a time [t] that solves [h = v0 * t + 0.5 * g * t^2]
    and a final velocity [v0 + g * t] that is the non-negative root of the
    energy balance [v^2 = v0^2 + 2 * g * h]; for a drop from rest these are
    [sqrt (2 * h / g)] and [sqrt (2 * g * h)], the values that
    [_solve_free_fall] reports. *)
Theorem physics_math_free_fall_laws (h v0 : R) :
  0 <= v0 ^ 2 + 2 * GRAVITY * h ->
  exists t v : R,
    PhysicsMath.free_fall h v0 !! "time" = Some (VNum t) /\
    PhysicsMath.free_fall h v0 !! "final_velocity" = Some (VNum v) /\
    v = v0 + GRAVITY * t /\
    v0 * t + 0.5 * GRAVITY * t ^ 2 = h /\
    0 <= v /\ v ^ 2 = v0 ^ 2 + 2 * GRAVITY * h /\
    (v0 = 0 -> t = sqrt (2 * h / 9.81) /\ v = sqrt (2 * 9.81 * h)).
Proof.
  intros Hdisc.
  assert (Hg := GRAVITY_fraction). assert (Hhalf := half_fraction).
  unfold PhysicsMath.free_fall.
  assert (Hd : v0 ^ 2 - 4 * (0.5 * GRAVITY) * - h = v0 ^ 2 + 2 * GRAVITY * h)
    by (rewrite Hg, Hhalf; field).
  rewrite Hd.
  destruct (decide (v0 ^ 2 + 2 * GRAVITY * h >= 0)) as [_|Hneg]; [| lra].
  set (r := sqrt (v0 ^ 2 + 2 * GRAVITY * h)).
  assert (Hr0 : 0 <= r) by apply sqrt_pos.
  assert (Hrr : r * r = v0 ^ 2 + 2 * GRAVITY * h) by now apply sqrt_sqrt.
  assert (Ht : (- v0 + r) / (2 * (0.5 * GRAVITY)) = (r - v0) / GRAVITY)
    by (rewrite Hg, Hhalf; field).
  rewrite Ht.
  assert (Hv : v0 + GRAVITY * ((r - v0) / GRAVITY) = r) by (rewrite Hg; field).
  exists ((r - v0) / GRAVITY), (v0 + GRAVITY * ((r - v0) / GRAVITY)).
  split; [reflexivity|]. split; [reflexivity|]. split; [reflexivity|].
  split.
  { assert (Hh : h = (r * r - v0 ^ 2) / (2 * (981 / 100)))
      by (rewrite Hrr, Hg; field).
    rewrite Hg, Hhalf.
    transitivity ((r * r - v0 ^ 2) / (2 * (981 / 100))); [field | now symmetry]. }
  rewrite Hv. split; [exact Hr0|].
  split; [rewrite <- Hrr; ring|].
  intros ->.
  assert (Hh0 : 0 <= h) by (rewrite Hg in Hdisc; lra).
  assert (Hr : r = sqrt (2 * 9.81 * h)).
  { unfold r. f_equal. rewrite Hg. lra. }
  split; [| exact Hr].
  symmetry. apply sqrt_lem_1.
  - lra.
  - rewrite Hg. apply Rmult_le_pos; [lra|]. left. apply Rinv_0_lt_compat. lra.
  - change 9.81 with GRAVITY. rewrite Hg.
    transitivity (r * r / (981 / 100 * (981 / 100))); [field|].
    rewrite Hrr, Hg. field.
Qed.

Lemma physics_math_free_fall_laws_witness :
  exists t v : R,
    PhysicsMath.free_fall 15 0 !! "time" = Some (VNum t) /\
    PhysicsMath.free_fall 15 0 !! "final_velocity" = Some (VNum v) /\
    t = sqrt (2 * 15 / 9.81) /\ v = sqrt (2 * 9.81 * 15).
Proof.
  destruct (physics_math_free_fall_laws 15 0)
    as (t & v & Ht & Hv & _ & _ & _ & _ & Hrest).
  - unfold GRAVITY. lra.
  - destruct (Hrest eq_refl) as [Ht' Hv'].
    exists t, v. repeat split; assumption.
Defined.

(** X30: launched from a height [h >= 0], [projectile_motion] returns
    the same range, time of flight, maximum height and final velocity as
    the solver's own [_solve_projectile_motion]. *)
Theorem physics_math_projectile_matches_solver (v0 angle h : R) :
  0 <= h ->
  exists d : gmap string value,
    PhysicsMath.projectile_motion v0 angle h = Ok d /\
    let d' := _solve_projectile_motion (VNum v0) (VNum angle) (VNum h) in
    d !! "range" = d' !! "range" /\
    d !! "time_flight" = d' !! "time_flight" /\
    d !! "max_height" = d' !! "max_height" /\
    d !! "final_velocity" = d' !! "final_velocity" /\
    d !! "final_velocity_x" = d' !! "final_velocity_x" /\
    d !! "final_velocity_y" = d' !! "final_velocity_y".
Proof.
  intros Hh.
  assert (Hg := GRAVITY_fraction). assert (Hhalf := half_fraction).
  unfold PhysicsMath.projectile_motion, _solve_projectile_motion.
  cbn [mbind result_bind to_num].
  set (v0x := v0 * cos (math_radians angle)).
  set (v0y := v0 * sin (math_radians angle)).
  set (disc := (- v0y) ^ 2 - 4 * (0.5 * GRAVITY) * - h).
  assert (Hsq : 0 <= v0y ^ 2) by apply pow2_ge_0.
  assert (Hd : disc = v0y ^ 2 + 2 * GRAVITY * h)
    by (unfold disc; rewrite Hg, Hhalf; field).
  assert (Hdisc : 0 <= disc) by (rewrite Hd, Hg; lra).
  destruct (decide (disc < 0)) as [Hneg|_]; [lra|].
  rewrite (math_sqrt_nonneg _ Hdisc). cbn [mbind result_bind].
  set (r := sqrt disc).
  assert (Hr0 : 0 <= r) by apply sqrt_pos.
  assert (Hrr : r * r = disc) by now apply sqrt_sqrt.
  assert (Hsum : 0 <= v0y + r).
  { destruct (Rle_dec 0 (v0y + r)) as [H|H]; [exact H|]. exfalso.
    rewrite Hd, Hg in Hrr. nra. }
  assert (Ht : 0 <= (- - v0y + r) / (2 * (0.5 * GRAVITY))).
  { replace ((- - v0y + r) / (2 * (0.5 * GRAVITY))) with ((v0y + r) / (981 / 100))
      by (rewrite Hg, Hhalf; field).
    apply Rmult_le_pos; [exact Hsum|]. left. apply Rinv_0_lt_compat. lra. }
  destruct (decide ((- - v0y + r) / (2 * (0.5 * GRAVITY)) < 0)) as [Hneg|_]; [lra|].
  rewrite math_sqrt_nonneg by (apply Rplus_le_le_0_compat; apply pow2_ge_0).
  cbn [mbind result_bind catch_error_dict].
  eexists. split; [reflexivity|]. cbv zeta. repeat split; reflexivity.
Qed.

Lemma physics_math_projectile_matches_solver_witness :
  exists d : gmap string value,
    PhysicsMath.projectile_motion 20 45 10 = Ok d /\
    d !! "range" = _solve_projectile_motion (VNum 20) (VNum 45) (VNum 10) !! "range".
Proof.
  destruct (physics_math_projectile_matches_solver 20 45 10) as (d & Hd & Hrange & _);
    [lra|].
  exists d. split; [exact Hd | exact Hrange].
Defined.
